(** * Finance Brain: the BNPL payment-allocation engine

    A shallow embedding of [src/src/finance_brain.py] (class
    [FinanceBrainAgent] and [create_cart_items]) together with the
    properties of it that the specification states.

    Modelling conventions.

    - Python [float] amounts are exact rationals ([Q]).  Every finite float
      is a rational and the comparisons of the source ([>], [>=], [<], [<=])
      are exact on them; the representation error of binary [+], [-], [*]
      and [/] is not modelled.  Properties of amounts are stated up to [==].
    - [round(x, 2)] is [round2]: the nearest multiple of 1/100, ties to the
      even cent.
    - [datetime] values are a count of microseconds since
      0001-01-01T00:00:00 (naive, proleptic Gregorian), so that comparison
      and [timedelta] arithmetic are integer comparison and addition.
      [datetime.now()] is an explicit argument [now]: a call reads the clock
      once, also where the source reads it again a few lines later.
    - [dateutil.parser.parse] is an external library: it is a section
      variable [parse_date], which may fail.
    - [self.users] is a finite map from user ids to profiles.
    - Warnings, reasons and the summary are the texts of the source; the
      optional language-model summary ([use_llm], off by default) is not
      modelled.
    - Exceptions are values of [error], threaded through [result]. *)

From Stdlib Require Import ZArith QArith Qround Qabs Lqa Lia.
From Stdlib Require Import String Ascii DecimalString List Permutation Sorted.
From stdpp Require Import base gmap strings.
Import ListNotations.

Local Open Scope string_scope.
Local Open Scope Z_scope.

(** ** Failure *)

(** [ValueError(f"User not found: {user_id}")] and the failure of
    [parse_date] on a string that holds no date. *)
Inductive error : Type :=
| UserNotFound (user_id : string)
| ParserError (text : string).

Inductive result (A : Type) : Type :=
| Ok (a : A)
| Err (e : error).

Arguments Ok {A} a.
Arguments Err {A} e.

Definition bind {A B : Type} (c : result A) (k : A -> result B) : result B :=
  match c with
  | Ok a => k a
  | Err e => Err e
  end.

Notation "'let*' x ':=' c 'in' k" := (bind c (fun x => k))
  (at level 10, x pattern, c at level 100, k at level 200, only parsing).

(** A [for] loop whose body may raise: the first failure aborts the loop. *)
Fixpoint for_each {A S : Type} (body : S -> A -> result S) (l : list A) (s : S)
  : result S :=
  match l with
  | [] => Ok s
  | x :: l' => let* s' := body s x in for_each body l' s'
  end.

(** ** Amounts *)

Module Money.

(** Nearest integer, ties to even. *)
Definition round_half_even (x : Q) : Z :=
  let f := Qfloor x in
  match Qcompare (x - inject_Z f) (1 # 2) with
  | Lt => f
  | Gt => f + 1
  | Eq => if Z.even f then f else f + 1
  end.

(** [round(x, 2)] *)
Definition round2 (x : Q) : Q :=
  (inject_Z (round_half_even (x * 100)) / 100)%Q.

(** [max(0, x)]: the first argument is kept unless the second is greater. *)
Definition max0 (x : Q) : Q := if Qlt_le_dec 0 x then x else 0%Q.

(** The comparisons of the source, as booleans. *)
Definition Qltb (x y : Q) : bool := if Qlt_le_dec x y then true else false.
Definition Qgtb (x y : Q) : bool := Qltb y x.
Definition Qleb (x y : Q) : bool := Qle_bool x y.
Definition Qgeb (x y : Q) : bool := Qle_bool y x.

(** [sum(xs)]: the additions start from 0 and run left to right. *)
Definition sum (xs : list Q) : Q := fold_left Qplus xs 0%Q.


Definition digits (n : Z) : string := NilZero.string_of_uint (N.to_uint (Z.to_N n)).

Fixpoint zeros (n : nat) : string :=
  match n with
  | O => ""
  | S n' => "0" ++ zeros n'
  end.

(** A numeral zero-padded on the left to at least [w] places. *)
Definition pad (w : nat) (s : string) : string :=
  zeros (w - String.length s) ++ s.

(** [f"{x:.2f}"] *)
Definition format_2f (x : Q) : string :=
  let c := round_half_even (Qabs x * 100) in
  (if Qlt_le_dec x 0 then "-" else "")
    ++ digits (c / 100) ++ "." ++ pad 2 (digits (c mod 100)).

End Money.
Import Money.

(** ** Dates *)

Module Clock.

(** Microseconds since 0001-01-01T00:00:00. *)
Definition datetime : Type := Z.

Definition usec_per_second : Z := 1000000.
Definition usec_per_day : Z := 86400 * usec_per_second.

(** [timedelta(days=d)] and [timedelta(weeks=w)], in microseconds. *)
Definition days (d : Z) : Z := d * usec_per_day.
Definition weeks (w : Z) : Z := days (7 * w).

(** [(t1 - t0).days]: whole days, rounded towards minus infinity. *)
Definition delta_days (t1 t0 : datetime) : Z := (t1 - t0) / usec_per_day.

(** Day number of a datetime, 0 for 0001-01-01. *)
Definition day_number (t : datetime) : Z := t / usec_per_day.

(** Year, month and day of a day number (proleptic Gregorian calendar);
    the computation counts from 0000-03-01, which is 306 days earlier. *)
Definition ymd_of_day (n : Z) : Z * Z * Z :=
  let z := n + 306 in
  let era := z / 146097 in
  let doe := z mod 146097 in
  let yoe := (doe - doe / 1460 + doe / 36524 - doe / 146096) / 365 in
  let doy := doe - (365 * yoe + yoe / 4 - yoe / 100) in
  let mp := (5 * doy + 2) / 153 in
  let d := doy - (153 * mp + 2) / 5 + 1 in
  let m := if mp <? 10 then mp + 3 else mp - 9 in
  let y := yoe + era * 400 + (if m <=? 2 then 1 else 0) in
  (y, m, d).

Definition day_of_ymd (y m d : Z) : Z :=
  let y' := if m <=? 2 then y - 1 else y in
  let era := y' / 400 in
  let yoe := y' mod 400 in
  let mp := if 2 <? m then m - 3 else m + 9 in
  let doy := (153 * mp + 2) / 5 + d - 1 in
  let doe := yoe * 365 + yoe / 4 - yoe / 100 + doy in
  era * 146097 + doe - 306.

(** [t.strftime("%Y-%m-%d")] *)
Definition strftime_ymd (t : datetime) : string :=
  let '(y, m, d) := ymd_of_day (day_number t) in
  pad 4 (digits y) ++ "-" ++ pad 2 (digits m) ++ "-" ++ pad 2 (digits d).

(** [t.isoformat()]: the date, a [T], the time of day, and the
    microseconds when they are not zero. *)
Definition isoformat (t : datetime) : string :=
  let us := t mod usec_per_day in
  let s := us / usec_per_second in
  let frac := us mod usec_per_second in
  strftime_ymd t ++ "T"
    ++ pad 2 (digits (s / 3600)) ++ ":"
    ++ pad 2 (digits ((s / 60) mod 60)) ++ ":"
    ++ pad 2 (digits (s mod 60))
    ++ (if frac =? 0 then "" else "." ++ pad 6 (digits frac)).

(** A datetime from its calendar fields. *)
Definition make_datetime (y m d hh mm ss : Z) : datetime :=
  day_of_ymd y m d * usec_per_day + ((hh * 60 + mm) * 60 + ss) * usec_per_second.

End Clock.
Import Clock.

(** ** Data model *)

(** [@dataclass CartItem] *)
Record CartItem : Type := {
  name : string;
  price : Q;
  category : string;
  bnpl_eligible : bool;      (* default True *)
  is_essential : bool        (* default False *)
}.

(** [item.is_essential = b]: the item is an object shared by the cart and
    the lists it is appended to, so the assignment shows in all of them. *)
Definition set_is_essential (item : CartItem) (b : bool) : CartItem :=
  {| name := name item; price := price item; category := category item;
     bnpl_eligible := bnpl_eligible item; is_essential := b |}.

(** [@dataclass PaymentPlan] *)
Record PaymentPlan : Type := {
  installments : Z;
  interval_weeks : Z;        (* default 2 *)
  interval_months : Z;       (* default 0 *)
  fee_percent : Q            (* default 0.0 *)
}.

(** [PaymentPlan(installments=n)] *)
Definition PaymentPlan_of (n : Z) : PaymentPlan :=
  {| installments := n; interval_weeks := 2; interval_months := 0; fee_percent := 0 |}.

(** The two values of [PaymentRecommendation.strategy]. *)
Inductive Strategy : Type := PAY_NOW | BNPL.

(** [@dataclass PaymentRecommendation] *)
Record PaymentRecommendation : Type := {
  item : CartItem;
  strategy : Strategy;
  reason : string;
  payment_plan : option PaymentPlan;   (* default None *)
  installment_amount : Q;              (* default 0.0 *)
  payment_dates : list string          (* default [] *)
}.

(** [@dataclass CartOptimization] *)
Record CartOptimization : Type := {
  pay_now_items : list CartItem;
  bnpl_items : list CartItem;
  pay_now_total : Q;
  bnpl_total : Q;
  monthly_bnpl_payment : Q;
  recommendations : list PaymentRecommendation;
  summary : string;
  warnings : list string;
  projected_balance : Q
}.

(** A bill of a user profile: keys ["name"], ["amount"], ["due_date"]. *)
Record Bill : Type := {
  b_name : string;
  b_amount : Q;
  b_due_date : string
}.

(** The ["next_paycheck"] record of a profile: keys ["date"], ["amount"]. *)
Record Paycheck : Type := {
  p_date : string;
  p_amount : Q
}.

(** A user profile of the store.  The keys read with [user[...]] are plain
    fields; the keys read with [user.get(..., default)] are optional.  An
    absent ["upcoming_bills"] is the empty list, and [u_next_paycheck] is
    [None] for an absent or empty ["next_paycheck"], which the source does
    not tell apart ([if paycheck:]). *)
Record User : Type := {
  u_id : string;
  u_name : string;
  u_bank_balance : Q;
  u_upcoming_bills : list Bill;
  u_next_paycheck : option Paycheck;
  u_credit_tier : option string;
  u_bnpl_eligible : option bool
}.

(** An entry of [finances["upcoming_bills"]]. *)
Record UpcomingBill : Type := {
  ub_name : string;
  ub_amount : Q;
  ub_due_date : string;
  ub_days_until : Z
}.

(** The dictionary returned by [calculate_available_funds]. *)
Record Finances : Type := {
  fin_current_balance : Q;
  fin_upcoming_bills : list UpcomingBill;
  fin_total_bills : Q;
  fin_paycheck_expected : Q;
  fin_paycheck_date : option string;
  fin_projected_balance : Q;
  fin_available_for_spending : Q;
  fin_safe_bnpl_installment : Q;
  fin_credit_tier : string;
  fin_bnpl_eligible : bool
}.

(** The dictionary returned by [calculate_bnpl_plan]. *)
Record BnplPlan : Type := {
  plan_total_amount : Q;
  plan_installments : positive;
  plan_installment_amount : Q;
  plan_payments : list Q;
  plan_payment_dates : list string;
  plan_fee : Q;
  plan_total_cost : Q
}.

Inductive EventType : Type := PAYMENT | BNPL_PAYMENT | BILL | INCOME.

(** A calendar event: keys ["date"], ["type"], ["description"], ["amount"],
    and ["balance_after"] or ["items"] where the source sets them. *)
Record CalendarEvent : Type := {
  ev_date : string;
  ev_type : EventType;
  ev_description : string;
  ev_amount : Q;
  ev_balance_after : option Q;
  ev_items : option (list string)
}.

(** An element of the raw list given to [create_cart_items]: each key may
    be absent. *)
Record ItemData : Type := {
  d_name : option string;
  d_price : option Q;
  d_category : option string;
  d_bnpl_eligible : option bool
}.

(** ** Class constants *)

Definition ESSENTIAL_CATEGORIES : list string :=
  ["Groceries"; "Baby & Kids"; "Health & Beauty"; "Medicine"].

Definition BNPL_MIN_AMOUNT : Q := 35.
Definition BNPL_MAX_AMOUNT : Q := 2000.

(** [c in self.ESSENTIAL_CATEGORIES] *)
Definition in_essential (c : string) : bool :=
  existsb (String.eqb c) ESSENTIAL_CATEGORIES.

Definition sum_prices (items : list CartItem) : Q := sum (map price items).

(** ** The agent *)

Section Agent.

(** [dateutil.parser.parse]: [None] when it raises. *)
Variable parse_date : string -> option datetime.

(** [self.users], as loaded by [_load_user_db]. *)
Variable users : gmap string User.

(** [datetime.now()] *)
Variable now : datetime.

Definition parse (text : string) : result datetime :=
  match parse_date text with
  | Some t => Ok t
  | None => Err (ParserError text)
  end.

(** [self.users.get(user_id)] *)
Definition get_user (user_id : string) : option User := users !! user_id.

(** One round of the loop over [user.get("upcoming_bills", [])]; the state
    is [(upcoming_bills, total_bills)]. *)
Definition bill_step (today cutoff : datetime)
    (st : list UpcomingBill * Q) (bill : Bill) : result (list UpcomingBill * Q) :=
  let '(upcoming_bills, total_bills) := st in
  let* due_date := parse (b_due_date bill) in
  if (today <=? due_date) && (due_date <=? cutoff) then
    Ok ((upcoming_bills ++
           [{| ub_name := b_name bill;
               ub_amount := b_amount bill;
               ub_due_date := b_due_date bill;
               ub_days_until := delta_days due_date today |}])%list,
        (total_bills + b_amount bill)%Q)
  else Ok (upcoming_bills, total_bills).

(** [calculate_available_funds(user_id, days_ahead=30)].  A profile of the
    store always holds its ["id"], so [not user] is the lookup miss. *)
Definition calculate_available_funds (user_id : string) (days_ahead : Z)
  : result Finances :=
  match get_user user_id with
  | None => Err (UserNotFound user_id)
  | Some user =>
    let today := now in
    let cutoff := today + days days_ahead in
    let balance := u_bank_balance user in
    let* (upcoming_bills, total_bills) :=
      for_each (bill_step today cutoff) (u_upcoming_bills user) ([], 0%Q) in
    let* (paycheck_amount, paycheck_date) :=
      match u_next_paycheck user with
      | Some paycheck =>
        let* paycheck_date := parse (p_date paycheck) in
        if (today <=? paycheck_date) && (paycheck_date <=? cutoff)
        then Ok (p_amount paycheck, Some paycheck_date)
        else Ok (0%Q, Some paycheck_date)
      | None => Ok (0%Q, None)
      end in
    let projected_balance := (balance - total_bills + paycheck_amount)%Q in
    let buffer := (balance * (10 # 100))%Q in
    let available_for_spending := max0 (balance - total_bills - buffer) in
    let safe_installment := (available_for_spending * (25 # 100))%Q in
    Ok {| fin_current_balance := balance;
          fin_upcoming_bills := upcoming_bills;
          fin_total_bills := total_bills;
          fin_paycheck_expected := paycheck_amount;
          fin_paycheck_date := option_map isoformat paycheck_date;
          fin_projected_balance := round2 projected_balance;
          fin_available_for_spending := round2 available_for_spending;
          fin_safe_bnpl_installment := round2 safe_installment;
          fin_credit_tier :=
            match u_credit_tier user with Some t => t | None => "unknown" end;
          fin_bnpl_eligible :=
            match u_bnpl_eligible user with Some b => b | None => false end |}
  end.

(** One round of the loop of [classify_items]; the state is
    [(essential, discretionary)]. *)
Definition classify_step (st : list CartItem * list CartItem) (item : CartItem)
  : list CartItem * list CartItem :=
  let '(essential, discretionary) := st in
  let is_essential := in_essential (category item) in
  let item := set_is_essential item is_essential in
  if is_essential then ((essential ++ [item])%list, discretionary)
  else if bnpl_eligible item && Qgeb (price item) BNPL_MIN_AMOUNT
  then (essential, (discretionary ++ [item])%list)
  else ((essential ++ [item])%list, discretionary).

(** [classify_items(items)] *)
Definition classify_items (items : list CartItem) : list CartItem * list CartItem :=
  fold_left classify_step items ([], []).

(** [calculate_bnpl_plan(amount, installments=4)].  The count is positive:
    the only callers use the default. *)
Definition calculate_bnpl_plan (amount : Q) (installments : positive) : BnplPlan :=
  let today := now in
  let installment_amount := round2 (amount / inject_Z (Z.pos installments)) in
  let payments := repeat installment_amount (Pos.to_nat installments - 1) in
  let payments := (payments ++ [round2 (amount - sum payments)])%list in
  let dates :=
    map (fun i => strftime_ymd (today + weeks (2 * Z.of_nat i)))
        (seq 0 (Pos.to_nat installments)) in
  {| plan_total_amount := amount;
     plan_installments := installments;
     plan_installment_amount := installment_amount;
     plan_payments := payments;
     plan_payment_dates := dates;
     plan_fee := 0;
     plan_total_cost := amount |}.

(** A recommendation with the dataclass defaults for the plan fields. *)
Definition recommend (i : CartItem) (s : Strategy) (why : string)
  : PaymentRecommendation :=
  {| item := i; strategy := s; reason := why;
     payment_plan := None; installment_amount := 0; payment_dates := [] |}.

(** A [BNPL] recommendation carrying the 4-payment plan of the item. *)
Definition recommend_bnpl (i : CartItem) (why : string) (plan : BnplPlan)
  : PaymentRecommendation :=
  {| item := i; strategy := BNPL; reason := why;
     payment_plan := Some (PaymentPlan_of 4);
     installment_amount := plan_installment_amount plan;
     payment_dates := plan_payment_dates plan |}.

(** The state of the two loops of [optimize_cart]:
    [(recommendations, warnings, pay_now_items, bnpl_items)]. *)
Definition LoopState : Type :=
  list PaymentRecommendation * list string * list CartItem * list CartItem.

(** One round of [for item in essential]. *)
Definition essential_step (st : LoopState) (i : CartItem) : LoopState :=
  let '(recommendations, warnings, pay_now_items, bnpl_items) := st in
  let rec :=
    recommend i PAY_NOW
      (category i ++ " items are essential and should be paid immediately.") in
  ((recommendations ++ [rec])%list, warnings, (pay_now_items ++ [i])%list, bnpl_items).

(** One round of [for item in discretionary]: the first rule that applies
    decides. *)
Definition discretionary_step (finances : Finances)
    (essential_total available safe_installment : Q)
    (st : LoopState) (i : CartItem) : LoopState :=
  let '(recommendations, warnings, pay_now_items, bnpl_items) := st in
  let '(rec, warnings, pay_now_items, bnpl_items) :=
    if negb (fin_bnpl_eligible finances) then
      (recommend i PAY_NOW "BNPL not available for your account.",
       warnings, (pay_now_items ++ [i])%list, bnpl_items)
    else if Qgtb (price i) BNPL_MAX_AMOUNT then
      (recommend i PAY_NOW "Item exceeds BNPL limit of $2000.0.",
       (warnings ++ [(name i ++ " exceeds BNPL maximum amount.")%string])%list,
       (pay_now_items ++ [i])%list, bnpl_items)
    else if Qgtb essential_total available then
      let plan := calculate_bnpl_plan (price i) 4 in
      (recommend_bnpl i
         ("Your essential purchases already exceed available funds. "
            ++ "BNPL helps preserve cash for necessities.") plan,
       (warnings ++ ["Budget is tight! Consider if all items are necessary."])%list,
       pay_now_items, (bnpl_items ++ [i])%list)
    else if Qgtb (essential_total + price i) available then
      let plan := calculate_bnpl_plan (price i) 4 in
      (recommend_bnpl i
         ("Paying now would leave you with only $"
            ++ format_2f (available - essential_total - price i) ++ ". "
            ++ "Use BNPL to maintain a safety buffer.") plan,
       warnings, pay_now_items, (bnpl_items ++ [i])%list)
    else if Qleb (price i / 4) safe_installment then
      let plan := calculate_bnpl_plan (price i) 4 in
      (recommend_bnpl i
         ("At $" ++ format_2f (plan_installment_amount plan) ++ " per payment, "
            ++ "this fits comfortably in your budget while preserving "
            ++ "cash for unexpected expenses.") plan,
       warnings, pay_now_items, (bnpl_items ++ [i])%list)
    else
      (recommend i PAY_NOW
         "You have sufficient funds. Paying now avoids future obligations.",
       warnings, (pay_now_items ++ [i])%list, bnpl_items)
  in
  ((recommendations ++ [rec])%list, warnings, pay_now_items, bnpl_items).

(** The warning of the first-payment check, if any. *)
Definition balance_warning (projected : Q) : list string :=
  if Qltb projected 0 then
    ["⚠ Warning: This purchase would overdraw your account by $"
       ++ format_2f (Qabs projected) ++ "!"]
  else if Qltb projected 100 then
    ["⚠ Caution: This would leave only $"
       ++ format_2f projected ++ " in your account."]
  else [].

Definition newline : string := String (ascii_of_nat 10) "".

(** [", ".join(names)] *)
Fixpoint join_names (names : list string) : string :=
  match names with
  | [] => ""
  | [n] => n
  | n :: rest => n ++ ", " ++ join_names rest
  end.

(** [_generate_summary], the rule-based text.  The language-model path is
    an optional external service, off by default ([use_llm=False]), and
    every failure of it falls through to this text. *)
Definition generate_summary (user : User) (finances : Finances)
    (pay_now_items bnpl_items : list CartItem)
    (pay_now_total bnpl_total projected_balance : Q) : string :=
  match bnpl_items with
  | [] =>
    "✅ Great news! You can comfortably pay $" ++ format_2f pay_now_total
      ++ " for all items today." ++ newline
      ++ "Your projected balance after this purchase: $"
      ++ format_2f projected_balance
  | _ :: _ =>
    "💡 **Smart Payment Strategy for " ++ u_name user ++ "**" ++ newline
      ++ "**Today's Payment:** $" ++ format_2f pay_now_total ++ " for essentials "
      ++ "(" ++ digits (Z.of_nat (List.length pay_now_items)) ++ " items)" ++ newline
      ++ "**BNPL Items:** $" ++ format_2f bnpl_total ++ " split into 4 payments of "
      ++ "$" ++ format_2f (bnpl_total / 4) ++ " every 2 weeks" ++ newline
      ++ newline ++ "📦 **Financing:** "
      ++ join_names (map name (firstn 3 bnpl_items)) ++ newline
      ++ (if Qgtb (fin_paycheck_expected finances) 0 then
            newline ++ "💰 With your next paycheck of $"
              ++ format_2f (fin_paycheck_expected finances) ++ " "
              ++ "coming on "
              ++ match fin_paycheck_date finances with
                 | Some d => d
                 | None => "None"
                 end
              ++ ", this strategy ensures you "
              ++ "have enough for rent and bills while getting everything you need today."
          else "")
  end.

(** [optimize_cart(user_id, items)] *)
Definition optimize_cart (user_id : string) (items : list CartItem)
  : result CartOptimization :=
  let* finances := calculate_available_funds user_id 30 in
  match get_user user_id with
  | None => Err (UserNotFound user_id)
  | Some user =>
    let '(essential, discretionary) := classify_items items in
    let essential_total := sum_prices essential in
    let discretionary_total := sum_prices discretionary in
    let cart_total := (essential_total + discretionary_total)%Q in
    let available := fin_available_for_spending finances in
    let safe_installment := fin_safe_bnpl_installment finances in
    let st : LoopState := ([], [], [], []) in
    let st := fold_left essential_step essential st in
    let st :=
      fold_left
        (discretionary_step finances essential_total available safe_installment)
        discretionary st in
    let '(recommendations, warnings, pay_now_items, bnpl_items) := st in
    let pay_now_total := sum_prices pay_now_items in
    let bnpl_total := sum_prices bnpl_items in
    let monthly_bnpl :=
      match bnpl_items with [] => 0%Q | _ :: _ => (bnpl_total / 4)%Q end in
    let first_payment := (pay_now_total + monthly_bnpl)%Q in
    let projected := (fin_current_balance finances - first_payment)%Q in
    let warnings := (warnings ++ balance_warning projected)%list in
    let summary :=
      generate_summary user finances pay_now_items bnpl_items
        pay_now_total bnpl_total projected in
    Ok {| pay_now_items := pay_now_items;
          bnpl_items := bnpl_items;
          pay_now_total := round2 pay_now_total;
          bnpl_total := round2 bnpl_total;
          monthly_bnpl_payment := round2 monthly_bnpl;
          recommendations := recommendations;
          summary := summary;
          warnings := warnings;
          projected_balance := round2 projected |}
  end.

(** One of the four events of the deferred schedule; [i] counts from 0. *)
Definition bnpl_event (optimization : CartOptimization) (i : nat) : CalendarEvent :=
  let payment_date := now + weeks (2 * Z.of_nat i) in
  let amount := (bnpl_total optimization / 4)%Q in
  {| ev_date := strftime_ymd payment_date;
     ev_type := BNPL_PAYMENT;
     ev_description := "BNPL Payment " ++ digits (Z.of_nat i + 1) ++ "/4";
     ev_amount := (- amount)%Q;
     ev_balance_after := None;
     ev_items := Some (map name (bnpl_items optimization)) |}.

Definition bill_event (bill : UpcomingBill) : CalendarEvent :=
  {| ev_date := ub_due_date bill;
     ev_type := BILL;
     ev_description := ub_name bill;
     ev_amount := (- ub_amount bill)%Q;
     ev_balance_after := None;
     ev_items := None |}.

(** [events.sort(key=lambda x: x["date"])]: the sort is stable, so the
    result is the one of inserting the events from the last to the first,
    each before the first event whose date is not smaller. *)
Fixpoint insert_by_date (e : CalendarEvent) (l : list CalendarEvent)
  : list CalendarEvent :=
  match l with
  | [] => [e]
  | x :: l' =>
    if String.leb (ev_date e) (ev_date x) then e :: x :: l'
    else x :: insert_by_date e l'
  end.

Definition sort_by_date (events : list CalendarEvent) : list CalendarEvent :=
  fold_right insert_by_date [] events.

(** The events of [get_payment_calendar] in the order they are appended. *)
Definition calendar_events (optimization : CartOptimization) (finances : Finances)
  : list CalendarEvent :=
  ([ {| ev_date := strftime_ymd now;
        ev_type := PAYMENT;
        ev_description := "Cart Purchase - Pay Now Items";
        ev_amount := (- pay_now_total optimization)%Q;
        ev_balance_after :=
          Some (fin_current_balance finances - pay_now_total optimization)%Q;
        ev_items := None |} ]
   ++ match bnpl_items optimization with
      | [] => []
      | _ :: _ => map (bnpl_event optimization) (seq 0 4)
      end
   ++ map bill_event (fin_upcoming_bills finances)
   ++ match fin_paycheck_date finances with
      | Some d =>
        [ {| ev_date := d;
             ev_type := INCOME;
             ev_description := "Paycheck";
             ev_amount := fin_paycheck_expected finances;
             ev_balance_after := None;
             ev_items := None |} ]
      | None => []
      end)%list.

(** [get_payment_calendar(optimization, user_id)].  The paycheck date of
    the snapshot is an ISO text, never empty, so [if finances["paycheck_date"]]
    tests its presence. *)
Definition get_payment_calendar (optimization : CartOptimization) (user_id : string)
  : result (list CalendarEvent) :=
  let user := get_user user_id in
  let* finances := calculate_available_funds user_id 30 in
  Ok (sort_by_date (calendar_events optimization finances)).

End Agent.

(** [create_cart_items(items_data)] *)
Definition create_cart_items (items_data : list ItemData) : list CartItem :=
  map (fun d =>
         {| name := match d_name d with Some n => n | None => "Unknown Item" end;
            price := match d_price d with Some p => p | None => 0%Q end;
            category := match d_category d with Some c => c | None => "General" end;
            bnpl_eligible := match d_bnpl_eligible d with Some b => b | None => true end;
            is_essential := false |})
      items_data.

(** ** A concrete store *)

Module Examples.

Definition number (s : string) : option Z :=
  option_map (fun u => Z.of_N (N.of_uint u)) (NilEmpty.uint_of_string s).

(** A date parser for the ISO form [YYYY-MM-DD] (midnight of that day), one
    of the forms that [dateutil] accepts. *)
Definition iso_parse (s : string) : option datetime :=
  if (String.length s =? 10)%nat
     && String.eqb (substring 4 1 s) "-" && String.eqb (substring 7 1 s) "-"
  then
    match number (substring 0 4 s), number (substring 5 2 s),
          number (substring 8 2 s) with
    | Some y, Some m, Some d => Some (make_datetime y m d 0 0 0)
    | _, _, _ => None
    end
  else None.

(** 2024-01-10, half past nine in the morning. *)
Definition morning : datetime := make_datetime 2024 1 10 9 30 0.

(** Balance $500 with $300 of bills in the window: $150 spendable. *)
Definition emily : User :=
  {| u_id := "user_003";
     u_name := "Emily Rodriguez";
     u_bank_balance := 500;
     u_upcoming_bills :=
       [ {| b_name := "Rent"; b_amount := 250; b_due_date := "2024-01-20" |};
         {| b_name := "Phone"; b_amount := 50; b_due_date := "2024-02-01" |};
         {| b_name := "Insurance"; b_amount := 120; b_due_date := "2024-03-15" |} ];
     u_next_paycheck := Some {| p_date := "2024-01-15"; p_amount := 1200 |};
     u_credit_tier := Some "fair";
     u_bnpl_eligible := Some true |}.

(** A comfortable account that may not defer payments. *)
Definition james : User :=
  {| u_id := "user_001";
     u_name := "James Carter";
     u_bank_balance := 9000;
     u_upcoming_bills := [];
     u_next_paycheck := Some {| p_date := "2024-03-01"; p_amount := 3000 |};
     u_credit_tier := None;
     u_bnpl_eligible := Some false |}.

Definition store : gmap string User :=
  <["user_003" := emily]> (<["user_001" := james]> ∅).

Definition item_of (n : string) (p : Q) (c : string) : CartItem :=
  {| name := n; price := p; category := c; bnpl_eligible := true;
     is_essential := false |}.

Definition diapers : CartItem := item_of "Diapers" 24.99 "Baby & Kids".
Definition airpods : CartItem := item_of "Apple AirPods" 149.99 "Electronics".

End Examples.

(** ** Vocabulary of the specification *)


(** The item after [classify_items] has set its flag. *)
Definition mark (i : CartItem) : CartItem :=
  set_is_essential i (in_essential (category i)).

(** The items that [classify_items] hands to the deferral policy: category
    not essential, item eligible, price at least the minimum. *)
Definition is_candidate (i : CartItem) : bool :=
  negb (in_essential (category i))
  && (bnpl_eligible i && Qgeb (price i) BNPL_MIN_AMOUNT).

(** Every date text of the profile is one the parser accepts. *)
Definition dates_parse (parse_date : string -> option datetime) (u : User) : bool :=
  forallb (fun b => match parse_date (b_due_date b) with Some _ => true | None => false end)
          (u_upcoming_bills u)
  && match u_next_paycheck u with
     | Some paycheck =>
       match parse_date (p_date paycheck) with Some _ => true | None => false end
     | None => true
     end.

Definition is_pay_now (r : PaymentRecommendation) : bool :=
  match strategy r with PAY_NOW => true | BNPL => false end.

Definition is_bnpl (r : PaymentRecommendation) : bool :=
  match strategy r with PAY_NOW => false | BNPL => true end.

Definition exceeds_warning (i : CartItem) : string :=
  name i ++ " exceeds BNPL maximum amount.".

Definition tight_warning : string :=
  "Budget is tight! Consider if all items are necessary.".

(** The components of the state of the loops of [optimize_cart]. *)
Definition st_recommendations (st : LoopState) : list PaymentRecommendation :=
  fst (fst (fst st)).
Definition st_warnings (st : LoopState) : list string := snd (fst (fst st)).
Definition st_pay_now (st : LoopState) : list CartItem := snd (fst st).
Definition st_bnpl (st : LoopState) : list CartItem := snd st.

(** The state of [optimize_cart] after its two loops. *)
Definition final_state (now : datetime) (finances : Finances) (items : list CartItem)
  : LoopState :=
  let '(essential, discretionary) := classify_items items in
  fold_left
    (discretionary_step now finances (sum_prices essential)
       (fin_available_for_spending finances) (fin_safe_bnpl_installment finances))
    discretionary
    (fold_left essential_step essential ([], [], [], [])).

(** [projected] of [optimize_cart]: the balance less the first payment,
    from the sums of the two partitions before any rounding. *)
Definition first_payment_balance (balance : Q) (pay_now bnpl : list CartItem) : Q :=
  (balance
   - (sum_prices pay_now
      + match bnpl with [] => 0 | _ :: _ => sum_prices bnpl / 4 end))%Q.

(** What holds of the loop state once the items [done] have been decided,
    for an account whose deferred-payment eligibility is [eligible]. *)
Record loop_invariant (eligible : bool) (st : LoopState) (done : list CartItem)
  : Prop := {
  inv_items : map item (st_recommendations st) = done;
  inv_pay_now :
    st_pay_now st = map item (List.filter is_pay_now (st_recommendations st));
  inv_bnpl :
    st_bnpl st = map item (List.filter is_bnpl (st_recommendations st));
  inv_not_candidate :
    forall r, In r (st_recommendations st) ->
      is_candidate (item r) = false -> strategy r = PAY_NOW;
  inv_above_max :
    forall r, In r (st_recommendations st) ->
      (BNPL_MAX_AMOUNT < price (item r))%Q -> strategy r = PAY_NOW;
  inv_warnings :
    Forall (fun w => w = tight_warning
                     \/ exists i, In i done /\ is_candidate i = true
                                  /\ (BNPL_MAX_AMOUNT < price i)%Q
                                  /\ w = exceeds_warning i)
           (st_warnings st);
  inv_warned :
    eligible = true ->
    forall i, In i done -> is_candidate i = true ->
      (BNPL_MAX_AMOUNT < price i)%Q -> In (exceeds_warning i) (st_warnings st);
  inv_silent : eligible = false -> st_warnings st = []
}.

(** How [optimize_cart] assembles its result from the snapshot and the final
    state of its loops (the summary text apart). *)
Definition assembled (finances : Finances) (st : LoopState) (r : CartOptimization)
  : Prop :=
  let projected :=
    first_payment_balance (fin_current_balance finances) (st_pay_now st) (st_bnpl st) in
  recommendations r = st_recommendations st
  /\ pay_now_items r = st_pay_now st
  /\ bnpl_items r = st_bnpl st
  /\ pay_now_total r = round2 (sum_prices (st_pay_now st))
  /\ bnpl_total r = round2 (sum_prices (st_bnpl st))
  /\ warnings r = (st_warnings st ++ balance_warning projected)%list
  /\ projected_balance r = round2 projected.

(** The bill entries of a snapshot come from the bills of the profile. *)
Definition from_profile (bills : list Bill) (b : UpcomingBill) : Prop :=
  exists bill, In bill bills
    /\ ub_name b = b_name bill /\ ub_amount b = b_amount bill
    /\ ub_due_date b = b_due_date bill.





(** The INCOME event of a paycheck at the datetime [t]. *)
Definition income_event (t : datetime) (amount : Q) : CalendarEvent :=
  {| ev_date := isoformat t;
     ev_type := INCOME;
     ev_description := "Paycheck";
     ev_amount := amount;
     ev_balance_after := None;
     ev_items := None |}.

(** ** The profile store as it is loaded *)

(** [d[k] = v] on a dictionary kept in insertion order: a key that is
    already there keeps its place and takes the new value, a new key goes
    to the end. *)
Fixpoint dict_set (d : list (string * User)) (k : string) (v : User)
  : list (string * User) :=
  match d with
  | [] => [(k, v)]
  | (k', v') :: d' =>
    if String.eqb k' k then (k', v) :: d' else (k', v') :: dict_set d' k v
  end.

(** [_load_user_db]: the loop [self.users[user["id"]] = user] over the
    ["users"] list of the file, from the empty dictionary. *)
Definition load_user_db (file_users : list User) : list (string * User) :=
  fold_left (fun d user => dict_set d (u_id user) user) file_users [].

(** The dictionary as the finite map that [get_user] reads. *)
Definition users_of (d : list (string * User)) : gmap string User :=
  list_to_map d.

(** An entry of [list_users]: keys ["id"], ["name"], ["balance"]. *)
Record UserSummary : Type := {
  s_id : string;
  s_name : string;
  s_balance : Q
}.

(** [list_users]: one entry per value of the dictionary, in its order. *)
Definition list_users (d : list (string * User)) : list UserSummary :=
  map (fun kv => {| s_id := u_id (snd kv);
                    s_name := u_name (snd kv);
                    s_balance := u_bank_balance (snd kv) |}) d.

(** ** The manual-entry path of the application *)

(** [item.bnpl_eligible = b] *)
Definition set_bnpl_eligible (i : CartItem) (b : bool) : CartItem :=
  {| name := name i; price := price i; category := category i;
     bnpl_eligible := b; is_essential := is_essential i |}.

(** The cart of the manual-entry tab of [app.py]:
    [cart_items = create_cart_items(manual_cart)] followed by
    [item.bnpl_eligible = api.is_bnpl_eligible(item.name)] for each item.
    The catalogue lookup is a fuzzy text search of an external library; it
    is the parameter [is_bnpl_eligible]. *)
Definition manual_cart_items (is_bnpl_eligible : string -> bool)
    (manual_cart : list ItemData) : list CartItem :=
  map (fun i => set_bnpl_eligible i (is_bnpl_eligible (name i)))
      (create_cart_items manual_cart).

(** ** More vocabulary *)

(** The bill is due within the look-ahead window, bounds included. *)
Definition due_in_window (parse_date : string -> option datetime)
    (now : datetime) (days_ahead : Z) (bill : Bill) : bool :=
  match parse_date (b_due_date bill) with
  | Some t => (now <=? t) && (t <=? now + days days_ahead)
  | None => false
  end.

(** The rules of the deferral policy that answer [BNPL], for an item that
    reached them. *)
Definition deferral_rule (essential_total available safe_installment : Q)
    (i : CartItem) : Prop :=
  (available < essential_total)%Q
  \/ (available < essential_total + price i)%Q
  \/ (price i / 4 <= safe_installment)%Q.

(** The plan fields of a recommendation, by strategy. *)
Definition plan_fields (now : datetime) (r : PaymentRecommendation) : Prop :=
  match strategy r with
  | PAY_NOW =>
    payment_plan r = None /\ installment_amount r = 0%Q /\ payment_dates r = []
  | BNPL =>
    payment_plan r
    = Some {| installments := 4; interval_weeks := 2; interval_months := 0;
              fee_percent := 0 |}
    /\ installment_amount r = round2 (price (item r) / 4)
    /\ payment_dates r = map (fun d => strftime_ymd (now + days d)) [0; 14; 28; 42]
  end.

(** What the policy decided for a recommendation, given the snapshot and
    the total of the classifier's pay-now list. *)
Definition decided (now : datetime) (finances : Finances) (essential_total : Q)
    (r : PaymentRecommendation) : Prop :=
  plan_fields now r
  /\ (strategy r = BNPL <->
      is_candidate (item r) = true
      /\ fin_bnpl_eligible finances = true
      /\ (price (item r) <= BNPL_MAX_AMOUNT)%Q
      /\ deferral_rule essential_total (fin_available_for_spending finances)
           (fin_safe_bnpl_installment finances) (item r)).

(** The events with the date text [d]. *)
Definition on_date (d : string) (events : list CalendarEvent) : list CalendarEvent :=
  List.filter (fun e => String.eqb (ev_date e) d) events.

(** The events that pay for the cart. *)
Definition is_cart_payment (e : CalendarEvent) : bool :=
  match ev_type e with
  | PAYMENT | BNPL_PAYMENT => true
  | BILL | INCOME => false
  end.

(** The entry that [calculate_available_funds] appends for a bill. *)
Definition upcoming_entry (parse_date : string -> option datetime)
    (today : datetime) (bill : Bill) : UpcomingBill :=
  {| ub_name := b_name bill;
     ub_amount := b_amount bill;
     ub_due_date := b_due_date bill;
     ub_days_until :=
       match parse_date (b_due_date bill) with
       | Some t => delta_days t today
       | None => 0
       end |}.


(** * Properties *)

(** ** Loops *)

(** A loop invariant [P state processed] that holds before the first round
    and is kept by every round holds at the end for the whole list. *)
Lemma fold_left_invariant {A S : Type} (f : S -> A -> S) (l : list A)
    (P : S -> list A -> Prop) (s0 : S) :
  P s0 [] ->
  (forall s pre x, In x l -> P s pre -> P (f s x) (pre ++ [x])%list) ->
  P (fold_left f l s0) l.
Proof.
  intros H0 Hstep.
  assert (G : forall rest pre s,
             (forall x, In x rest -> In x l) ->
             P s pre -> P (fold_left f rest s) (pre ++ rest)%list).
  { induction rest as [|x rest IH]; intros pre s Hin Hs; simpl.
    - now rewrite app_nil_r.
    - replace (pre ++ x :: rest)%list with ((pre ++ [x]) ++ rest)%list
        by now rewrite <- app_assoc.
      apply IH.
      + intros y Hy. apply Hin. now right.
      + apply Hstep; [apply Hin; now left | exact Hs]. }
  apply (G l [] s0); auto.
Qed.

(** ** Amounts *)

Section MoneyFacts.

Local Open Scope Q_scope.

Lemma Qltb_true (x y : Q) : Qltb x y = true <-> x < y.
Proof.
  unfold Qltb. destruct (Qlt_le_dec x y) as [H|H]; split; intros; auto.
  - discriminate.
  - exfalso. apply (Qlt_irrefl x). eapply Qlt_le_trans; eauto.
Qed.

Lemma Qltb_false (x y : Q) : Qltb x y = false <-> y <= x.
Proof.
  unfold Qltb. destruct (Qlt_le_dec x y) as [H|H]; split; intros; auto.
  - discriminate.
  - exfalso. apply (Qlt_irrefl x). eapply Qlt_le_trans; eauto.
Qed.

Lemma Qgtb_true (x y : Q) : Qgtb x y = true <-> y < x.
Proof. apply Qltb_true. Qed.

Lemma Qgeb_true (x y : Q) : Qgeb x y = true <-> y <= x.
Proof. apply Qle_bool_iff. Qed.








Lemma fold_left_Qplus (xs : list Q) (a : Q) :
  fold_left Qplus xs a == a + sum xs.
Proof.
  unfold sum. revert a.
  induction xs as [|x xs IH]; intros a; simpl.
  - lra.
  - rewrite IH, (IH (0 + x)). lra.
Qed.

Lemma sum_cons (x : Q) (xs : list Q) : sum (x :: xs) == x + sum xs.
Proof. unfold sum at 1. simpl. rewrite fold_left_Qplus. lra. Qed.


Lemma sum_Permutation (xs ys : list Q) : Permutation xs ys -> sum xs == sum ys.
Proof.
  induction 1 as [|x l l' _ IH|x y l|l l' l'' _ IH1 _ IH2].
  - reflexivity.
  - rewrite !sum_cons, IH. reflexivity.
  - rewrite !sum_cons. lra.
  - now rewrite IH1.
Qed.


End MoneyFacts.

(** ** The installment planner *)




(** ** The item classifier *)

Lemma is_candidate_mark (i : CartItem) : is_candidate (mark i) = is_candidate i.
Proof. reflexivity. Qed.

Lemma essential_not_candidate (i : CartItem) :
  in_essential (category i) = true -> is_candidate i = false.
Proof. intros H. unfold is_candidate. now rewrite H. Qed.

Lemma classify_step_from (items essential discretionary : list CartItem) :
  fold_left classify_step items (essential, discretionary)
  = ((essential ++ List.filter (fun i => negb (is_candidate i)) (map mark items))%list,
     (discretionary ++ List.filter is_candidate (map mark items))%list).
Proof.
  revert essential discretionary.
  induction items as [|i items IH]; intros essential discretionary.
  - simpl. now rewrite !app_nil_r.
  - cbn [fold_left map List.filter]. rewrite is_candidate_mark.
    unfold classify_step at 2. fold (mark i). unfold is_candidate.
    change (bnpl_eligible (mark i)) with (bnpl_eligible i).
    change (price (mark i)) with (price i).
    destruct (in_essential (category i)); cbn [negb andb].
    + rewrite IH, <- app_assoc. reflexivity.
    + destruct (bnpl_eligible i && Qgeb (price i) BNPL_MIN_AMOUNT); cbn [negb].
      * rewrite IH, <- app_assoc. reflexivity.
      * rewrite IH, <- app_assoc. reflexivity.
Qed.

(** The two partitions of [classify_items], in closed form: both keep the
    order of the cart. *)
Lemma classify_items_filter (items : list CartItem) :
  classify_items items
  = (List.filter (fun i => negb (is_candidate i)) (map mark items),
     List.filter is_candidate (map mark items)).
Proof. unfold classify_items. now rewrite classify_step_from. Qed.

Lemma filter_split_Permutation {A : Type} (f : A -> bool) (l : list A) :
  Permutation (List.filter (fun x => negb (f x)) l ++ List.filter f l) l.
Proof.
  induction l as [|x l IH]; simpl.
  - constructor.
  - destruct (f x); simpl.
    + symmetry. apply Permutation_cons_app. now symmetry.
    + now constructor.
Qed.

(** ** The loops of the optimizer *)

Lemma loop_invariant_start (eligible : bool) :
  loop_invariant eligible ([], [], [], []) [].
Proof. constructor; simpl; auto; intros; contradiction. Qed.

Lemma Forall_warnings_more (done : list CartItem) (i : CartItem) (ws : list string) :
  Forall (fun w => w = tight_warning
                   \/ exists j, In j done /\ is_candidate j = true
                                /\ (BNPL_MAX_AMOUNT < price j)%Q
                                /\ w = exceeds_warning j) ws ->
  Forall (fun w => w = tight_warning
                   \/ exists j, In j (done ++ [i]) /\ is_candidate j = true
                                /\ (BNPL_MAX_AMOUNT < price j)%Q
                                /\ w = exceeds_warning j) ws.
Proof.
  apply List.Forall_impl. intros w [H|(j & Hj & Hc & Hp & Hw)]; [now left|right].
  exists j. repeat split; auto. apply in_or_app. now left.
Qed.

(** One round that appends the recommendation [rec] for the item [i],
    files [i] on the side of its strategy and adds the warnings [more],
    keeps the invariant. *)
Lemma loop_invariant_step (eligible : bool) (st st' : LoopState)
    (done : list CartItem) (i : CartItem) (rec : PaymentRecommendation)
    (more : list string) :
  loop_invariant eligible st done ->
  item rec = i ->
  st_recommendations st' = (st_recommendations st ++ [rec])%list ->
  st_warnings st' = (st_warnings st ++ more)%list ->
  st_pay_now st' = (st_pay_now st ++ (if is_pay_now rec then [i] else []))%list ->
  st_bnpl st' = (st_bnpl st ++ (if is_bnpl rec then [i] else []))%list ->
  (is_candidate i = false -> strategy rec = PAY_NOW) ->
  ((BNPL_MAX_AMOUNT < price i)%Q -> strategy rec = PAY_NOW) ->
  Forall (fun w => w = tight_warning
                   \/ (is_candidate i = true /\ (BNPL_MAX_AMOUNT < price i)%Q
                       /\ w = exceeds_warning i)) more ->
  (eligible = true -> is_candidate i = true -> (BNPL_MAX_AMOUNT < price i)%Q ->
   In (exceeds_warning i) more) ->
  (eligible = false -> more = []) ->
  loop_invariant eligible st' (done ++ [i]).
Proof.
  intros [Hi Hp Hb Hc Hm Hw Hd Hs] Hrec Er Ew Ep Eb Hcand Hmax Hmore Hin Hnil.
  constructor.
  - rewrite Er, map_app, Hi. simpl. now rewrite Hrec.
  - rewrite Ep, Er, List.filter_app, map_app, Hp. simpl.
    destruct (is_pay_now rec); simpl; now rewrite ?Hrec.
  - rewrite Eb, Er, List.filter_app, map_app, Hb. simpl.
    destruct (is_bnpl rec); simpl; now rewrite ?Hrec.
  - intros r Hr. rewrite Er in Hr. apply in_app_or in Hr as [Hr|[<-|[]]]; auto.
    rewrite Hrec. auto.
  - intros r Hr. rewrite Er in Hr. apply in_app_or in Hr as [Hr|[<-|[]]]; auto.
    rewrite Hrec. auto.
  - rewrite Ew. apply Forall_app. split.
    + now apply Forall_warnings_more.
    + revert Hmore. apply List.Forall_impl.
      intros w [H|(H1 & H2 & H3)]; [now left|right].
      exists i. repeat split; auto. apply in_or_app. right. now left.
  - intros He j Hj Hcj Hpj. rewrite Ew. apply in_or_app.
    apply in_app_or in Hj as [Hj|[<-|[]]]; [left|right]; auto.
  - intros He. now rewrite Ew, (Hs He), (Hnil He).
Qed.

Lemma essential_step_invariant (eligible : bool) (st : LoopState)
    (done : list CartItem) (i : CartItem) :
  loop_invariant eligible st done ->
  is_candidate i = false ->
  loop_invariant eligible (essential_step st i) (done ++ [i]).
Proof.
  intros H Hc. destruct st as [[[recs ws] pn] bn].
  eapply loop_invariant_step with (more := []);
    [exact H | | reflexivity | | reflexivity | | | | | | ];
    cbn; rewrite ?app_nil_r; auto.
  congruence.
Qed.

Lemma discretionary_step_invariant (now : datetime) (finances : Finances)
    (essential_total available safe_installment : Q)
    (st : LoopState) (done : list CartItem) (i : CartItem) :
  loop_invariant (fin_bnpl_eligible finances) st done ->
  is_candidate i = true ->
  loop_invariant (fin_bnpl_eligible finances)
    (discretionary_step now finances essential_total available safe_installment st i)
    (done ++ [i]).
Proof.
  intros H Hc. destruct st as [[[recs ws] pn] bn].
  unfold discretionary_step.
  destruct (fin_bnpl_eligible finances) eqn:He; cbn [negb].
  2: { eapply loop_invariant_step with (more := []);
         [exact H | | reflexivity | | reflexivity | | | | | | ];
         cbn; rewrite ?app_nil_r; auto; congruence. }
  destruct (Qgtb (price i) BNPL_MAX_AMOUNT) eqn:Hmax.
  { apply Qgtb_true in Hmax.
    eapply loop_invariant_step with (more := [exceeds_warning i]);
      [exact H | | reflexivity | | reflexivity | | | | | | ];
      cbn; rewrite ?app_nil_r; auto; try congruence. }
  assert (Hle : ~ (BNPL_MAX_AMOUNT < price i)%Q).
  { intros Hlt. apply Qgtb_true in Hlt. congruence. }
  destruct (Qgtb essential_total available).
  { eapply loop_invariant_step with (more := [tight_warning]);
      [exact H | | reflexivity | | | reflexivity | | | | | ];
      cbn; rewrite ?app_nil_r; auto; try congruence; try contradiction. }
  destruct (Qgtb (essential_total + price i) available).
  { eapply loop_invariant_step with (more := []);
      [exact H | | reflexivity | | | reflexivity | | | | | ];
      cbn; rewrite ?app_nil_r; auto; try congruence; try contradiction. }
  destruct (Qleb (price i / 4) safe_installment).
  { eapply loop_invariant_step with (more := []);
      [exact H | | reflexivity | | | reflexivity | | | | | ];
      cbn; rewrite ?app_nil_r; auto; try congruence; try contradiction. }
  eapply loop_invariant_step with (more := []);
    [exact H | | reflexivity | | reflexivity | | | | | | ];
    cbn; rewrite ?app_nil_r; auto; try congruence; try contradiction.
Qed.

Lemma final_state_invariant (now : datetime) (finances : Finances)
    (items : list CartItem) :
  loop_invariant (fin_bnpl_eligible finances) (final_state now finances items)
    (fst (classify_items items) ++ snd (classify_items items)).
Proof.
  unfold final_state. rewrite classify_items_filter. cbn [fst snd].
  set (essential := List.filter (fun i => negb (is_candidate i)) (map mark items)).
  set (discretionary := List.filter is_candidate (map mark items)).
  apply (fold_left_invariant _ discretionary
           (fun s pre => loop_invariant (fin_bnpl_eligible finances) s
                           (essential ++ pre))).
  - rewrite app_nil_r.
    apply (fold_left_invariant _ essential
             (fun s pre => loop_invariant (fin_bnpl_eligible finances) s pre)).
    + apply loop_invariant_start.
    + intros s pre x Hx Hs. apply essential_step_invariant; auto.
      apply filter_In in Hx as [_ Hx]. now destruct (is_candidate x).
  - intros s pre x Hx Hs. rewrite app_assoc.
    apply discretionary_step_invariant; auto.
    now apply filter_In in Hx as [_ Hx].
Qed.

(** ** The snapshot builder *)

Section Snapshot.

Variable parse_date : string -> option datetime.
Variable users : gmap string User.
Variable now : datetime.

Lemma parse_ok (text : string) :
  (match parse_date text with Some _ => true | None => false end) = true ->
  exists t, parse parse_date text = Ok t /\ parse_date text = Some t.
Proof. unfold parse. destruct (parse_date text); [eauto|discriminate]. Qed.

Lemma parse_error (text : string) (e : error) :
  parse parse_date text = Err e -> exists t, e = ParserError t.
Proof.
  unfold parse. destruct (parse_date text); [discriminate|].
  intros [= <-]. eauto.
Qed.

(** The loop over the bills runs to its end when every due date parses,
    and all it collects comes from the profile. *)
Lemma bills_loop_ok (today cutoff : datetime) (all bills : list Bill)
    (st : list UpcomingBill * Q) :
  forallb (fun b => match parse_date (b_due_date b) with
                    | Some _ => true | None => false end) bills = true ->
  (forall b, In b bills -> In b all) ->
  Forall (from_profile all) (fst st) ->
  exists st', for_each (bill_step parse_date today cutoff) bills st = Ok st'
              /\ Forall (from_profile all) (fst st').
Proof.
  revert st. induction bills as [|b bills IH]; intros st Hp Hin Hst.
  - simpl. eauto.
  - simpl in Hp. apply andb_prop in Hp as [Hb Hp].
    destruct (parse_ok _ Hb) as (t & Ht & _).
    destruct st as [upcoming total]. cbn [for_each bill_step bind].
    rewrite Ht. cbn [bind].
    destruct ((today <=? t) && (t <=? cutoff))%bool; cbn [bind].
    + apply IH; auto.
      * intros x Hx. apply Hin. now right.
      * cbn [fst] in *. apply Forall_app. split; auto.
        repeat constructor. exists b. repeat split; auto. apply Hin. now left.
    + apply IH; auto. intros x Hx. apply Hin. now right.
Qed.

Lemma bills_loop_error (today cutoff : datetime) (bills : list Bill)
    (st : list UpcomingBill * Q) (e : error) :
  for_each (bill_step parse_date today cutoff) bills st = Err e ->
  exists t, e = ParserError t.
Proof.
  revert st. induction bills as [|b bills IH]; intros [upcoming total].
  - discriminate.
  - cbn [for_each bill_step bind].
    destruct (parse parse_date (b_due_date b)) as [t|e'] eqn:Ht; cbn [bind].
    + destruct ((today <=? t) && (t <=? cutoff))%bool; cbn [bind]; apply IH.
    + intros [= <-]. eapply parse_error; eauto.
Qed.

Lemma calculate_available_funds_unknown (user_id : string) (days_ahead : Z) :
  users !! user_id = None ->
  calculate_available_funds parse_date users now user_id days_ahead
  = Err (UserNotFound user_id).
Proof. intros H. unfold calculate_available_funds, get_user. now rewrite H. Qed.

(** For a known profile whose dates parse, the snapshot is built. *)
Lemma calculate_available_funds_known (user_id : string) (days_ahead : Z)
    (user : User) :
  users !! user_id = Some user ->
  dates_parse parse_date user = true ->
  exists finances,
    calculate_available_funds parse_date users now user_id days_ahead = Ok finances
    /\ fin_current_balance finances = u_bank_balance user
    /\ fin_bnpl_eligible finances
       = match u_bnpl_eligible user with Some b => b | None => false end
    /\ Forall (from_profile (u_upcoming_bills user)) (fin_upcoming_bills finances)
    /\ match u_next_paycheck user with
       | None => fin_paycheck_date finances = None
                 /\ fin_paycheck_expected finances = 0%Q
       | Some paycheck =>
         exists t, parse_date (p_date paycheck) = Some t
           /\ fin_paycheck_date finances = Some (isoformat t)
           /\ fin_paycheck_expected finances
              = if ((now <=? t) && (t <=? now + days days_ahead))%bool
                then p_amount paycheck else 0%Q
       end.
Proof.
  intros Hu Hd. unfold calculate_available_funds, get_user. rewrite Hu.
  unfold dates_parse in Hd. apply andb_prop in Hd as [Hb Hp].
  destruct (bills_loop_ok now (now + days days_ahead) (u_upcoming_bills user)
              (u_upcoming_bills user) ([], 0%Q) Hb) as ([upcoming total] & -> & Hf);
    auto.
  cbn [bind].
  destruct (u_next_paycheck user) as [paycheck|].
  - destruct (parse_ok _ Hp) as (t & Ht & Ht'). rewrite Ht. cbn [bind].
    destruct ((now <=? t) && (t <=? now + days days_ahead))%bool eqn:Hw;
      cbn [bind]; eexists; (split; [reflexivity|]); cbn;
      repeat split; auto; exists t; rewrite ?Hw; auto.
  - cbn [bind]. eexists. split; [reflexivity|]. cbn. auto.
Qed.

(** A known profile never yields the user-not-found error. *)
Lemma calculate_available_funds_error (user_id : string) (days_ahead : Z)
    (user : User) (e : error) :
  users !! user_id = Some user ->
  calculate_available_funds parse_date users now user_id days_ahead = Err e ->
  exists t, e = ParserError t.
Proof.
  intros Hu. unfold calculate_available_funds, get_user. rewrite Hu.
  destruct (for_each _ _ _) as [[upcoming total]|e'] eqn:Hl; cbn [bind].
  - destruct (u_next_paycheck user) as [paycheck|]; cbn [bind].
    + destruct (parse parse_date (p_date paycheck)) as [t|e'] eqn:Ht; cbn [bind].
      * destruct ((now <=? t) && (t <=? now + days days_ahead))%bool;
          cbn [bind]; discriminate.
      * intros [= <-]. eapply parse_error; eauto.
    + discriminate.
  - intros [= <-]. eapply bills_loop_error; eauto.
Qed.

(** With the snapshot at hand, [optimize_cart] returns the result
    assembled from the final state of its loops. *)
Lemma optimize_cart_assembled (user_id : string) (items : list CartItem)
    (user : User) (finances : Finances) :
  users !! user_id = Some user ->
  calculate_available_funds parse_date users now user_id 30 = Ok finances ->
  exists r,
    optimize_cart parse_date users now user_id items = Ok r
    /\ assembled finances (final_state now finances items) r.
Proof.
  intros Hu Hf. unfold optimize_cart, get_user. rewrite Hf, Hu. cbn [bind].
  unfold final_state.
  destruct (classify_items items) as [essential discretionary].
  destruct (fold_left _ discretionary _) as [[[recs ws] pn] bn].
  eexists. split; [reflexivity|].
  unfold assembled, first_payment_balance. cbn. repeat split.
Qed.

End Snapshot.

(** ** The cart optimizer *)

Lemma in_essential_In (c : string) :
  in_essential c = true <-> In c ESSENTIAL_CATEGORIES.
Proof.
  unfold in_essential. rewrite existsb_exists. split.
  - intros (x & Hx & E). apply String.eqb_eq in E. now subst.
  - intros H. exists c. split; [exact H|apply String.eqb_refl].
Qed.

Lemma classify_items_Permutation (items : list CartItem) :
  Permutation (fst (classify_items items) ++ snd (classify_items items))
              (map mark items).
Proof. rewrite classify_items_filter. apply filter_split_Permutation. Qed.

Lemma sum_prices_mark (items : list CartItem) :
  sum_prices (map mark items) = sum_prices items.
Proof. unfold sum_prices. rewrite map_map. reflexivity. Qed.

Lemma is_pay_now_not_bnpl (l : list PaymentRecommendation) :
  List.filter is_pay_now l = List.filter (fun r => negb (is_bnpl r)) l.
Proof.
  apply filter_ext. intros r. unfold is_pay_now, is_bnpl. now destruct (strategy r).
Qed.

(** The two partitions of a final state hold each decided item once. *)
Lemma partitions_Permutation (eligible : bool) (st : LoopState)
    (done : list CartItem) :
  loop_invariant eligible st done ->
  Permutation (st_pay_now st ++ st_bnpl st) done.
Proof.
  intros H. rewrite (inv_pay_now _ _ _ H), (inv_bnpl _ _ _ H), <- (inv_items _ _ _ H).
  rewrite is_pay_now_not_bnpl, <- map_app.
  apply Permutation_map, filter_split_Permutation.
Qed.

(** An item the policy did not defer is in the pay-now partition. *)
Lemma pay_now_member (eligible : bool) (st : LoopState) (done : list CartItem)
    (i : CartItem) :
  loop_invariant eligible st done ->
  In i done ->
  (is_candidate i = false \/ (BNPL_MAX_AMOUNT < price i)%Q) ->
  (exists r, In r (st_recommendations st) /\ item r = i /\ strategy r = PAY_NOW)
  /\ In i (st_pay_now st) /\ ~ In i (st_bnpl st).
Proof.
  intros H Hi Hwhy.
  assert (Hall : forall r, In r (st_recommendations st) -> item r = i ->
                           strategy r = PAY_NOW).
  { intros r Hr <-. destruct Hwhy.
    - now apply (inv_not_candidate _ _ _ H).
    - now apply (inv_above_max _ _ _ H). }
  rewrite <- (inv_items _ _ _ H) in Hi. apply in_map_iff in Hi as (r & Hr & Hin).
  repeat split.
  - exists r. auto.
  - rewrite (inv_pay_now _ _ _ H). apply in_map_iff. exists r. split; auto.
    apply filter_In. split; auto. unfold is_pay_now. now rewrite (Hall r).
  - rewrite (inv_bnpl _ _ _ H). intros Hb.
    apply in_map_iff in Hb as (r' & Hr' & Hin').
    apply filter_In in Hin' as [Hin' Hs]. unfold is_bnpl in Hs.
    now rewrite (Hall r') in Hs.
Qed.

(** A known profile whose dates parse gets a result, assembled from its
    snapshot. *)
Lemma optimize_cart_known (parse_date : string -> option datetime)
    (users : gmap string User) (now : datetime) (user_id : string)
    (user : User) (items : list CartItem) :
  users !! user_id = Some user ->
  dates_parse parse_date user = true ->
  exists finances r,
    optimize_cart parse_date users now user_id items = Ok r
    /\ fin_current_balance finances = u_bank_balance user
    /\ fin_bnpl_eligible finances
       = match u_bnpl_eligible user with Some b => b | None => false end
    /\ assembled finances (final_state now finances items) r
    /\ loop_invariant (fin_bnpl_eligible finances) (final_state now finances items)
         (fst (classify_items items) ++ snd (classify_items items)).
Proof.
  intros Hu Hd.
  destruct (calculate_available_funds_known parse_date users now user_id 30 user Hu Hd)
    as (finances & Hf & Hb & He & _).
  destruct (optimize_cart_assembled parse_date users now user_id items user finances
              Hu Hf) as (r & Hr & Ha).
  exists finances, r.
  split; [exact Hr|]. split; [exact Hb|]. split; [exact He|]. split; [exact Ha|].
  apply final_state_invariant.
Qed.

(** C3.  For a known profile, [optimize_cart] returns a result in which
    every cart item of an essential category has a recommendation with
    strategy [PAY_NOW] and lies in the pay-now partition and not in the
    deferred one, and no recommendation for an item of an essential
    category has another strategy: neither the price, nor the item's own
    eligibility flag, nor the account's eligibility matter. *)
Theorem essential_items_pay_now (parse_date : string -> option datetime)
    (users : gmap string User) (now : datetime) (user_id : string)
    (user : User) (items : list CartItem) :
  users !! user_id = Some user ->
  dates_parse parse_date user = true ->
  exists r,
    optimize_cart parse_date users now user_id items = Ok r
    /\ (forall i, In i items -> In (category i) ESSENTIAL_CATEGORIES ->
          (exists rec, In rec (recommendations r)
                       /\ item rec = mark i /\ strategy rec = PAY_NOW)
          /\ In (mark i) (pay_now_items r)
          /\ ~ In (mark i) (bnpl_items r))
    /\ (forall rec, In rec (recommendations r) ->
          In (category (item rec)) ESSENTIAL_CATEGORIES -> strategy rec = PAY_NOW).
Proof.
  intros Hu Hd.
  destruct (optimize_cart_known parse_date users now user_id user items Hu Hd)
    as (finances & r & Hr & _ & _ & Ha & Hinv).
  destruct Ha as (Erec & Epn & Ebn & _).
  exists r. split; [exact Hr|]. rewrite Erec, Epn, Ebn. split.
  - intros i Hi Hc. apply in_essential_In in Hc.
    eapply pay_now_member; [exact Hinv| |].
    + eapply Permutation_in; [symmetry; apply classify_items_Permutation|].
      now apply in_map.
    + left. now apply essential_not_candidate.
  - intros rec Hrec Hc. apply in_essential_In in Hc.
    apply (inv_not_candidate _ _ _ Hinv); auto.
    now apply essential_not_candidate.
Qed.

Lemma essential_items_pay_now_witness :
  exists r,
    optimize_cart Examples.iso_parse Examples.store Examples.morning "user_003"
      [Examples.diapers; Examples.airpods] = Ok r
    /\ In (mark Examples.diapers) (pay_now_items r).
Proof.
  destruct (essential_items_pay_now Examples.iso_parse Examples.store
              Examples.morning "user_003" Examples.emily
              [Examples.diapers; Examples.airpods])
    as (r & Hr & Hitems & _).
  - vm_compute. reflexivity.
  - vm_compute. reflexivity.
  - exists r. split; [exact Hr|].
    apply (Hitems Examples.diapers).
    + simpl. auto.
    + simpl. auto.
Defined.

(** C4, as the source has it.  There is one recommendation per cart item,
    and the recommendations list the pay-now partition of the classifier
    first and its deferral candidates after it, each in cart order; the
    items of the two result partitions are those of the recommendations
    with strategy [PAY_NOW] and [BNPL], so that every cart item is in one
    partition, once. *)
Theorem recommendations_cover_cart (parse_date : string -> option datetime)
    (users : gmap string User) (now : datetime) (user_id : string)
    (user : User) (items : list CartItem) :
  users !! user_id = Some user ->
  dates_parse parse_date user = true ->
  exists r,
    optimize_cart parse_date users now user_id items = Ok r
    /\ List.length (recommendations r) = List.length items
    /\ map item (recommendations r)
       = (fst (classify_items items) ++ snd (classify_items items))%list
    /\ Permutation (map item (recommendations r)) (map mark items)
    /\ pay_now_items r = map item (List.filter is_pay_now (recommendations r))
    /\ bnpl_items r = map item (List.filter is_bnpl (recommendations r))
    /\ Permutation (pay_now_items r ++ bnpl_items r) (map mark items).
Proof.
  intros Hu Hd.
  destruct (optimize_cart_known parse_date users now user_id user items Hu Hd)
    as (finances & r & Hr & _ & _ & Ha & Hinv).
  destruct Ha as (Erec & Epn & Ebn & _).
  exists r. split; [exact Hr|]. rewrite Erec, Epn, Ebn.
  pose proof (inv_items _ _ _ Hinv) as Hitems.
  pose proof (classify_items_Permutation items) as Hperm.
  repeat split.
  - rewrite <- (length_map item), Hitems, (Permutation_length Hperm).
    apply length_map.
  - exact Hitems.
  - now rewrite Hitems.
  - apply (inv_pay_now _ _ _ Hinv).
  - apply (inv_bnpl _ _ _ Hinv).
  - etransitivity; [eapply partitions_Permutation; exact Hinv|exact Hperm].
Qed.

Lemma recommendations_cover_cart_witness :
  exists r,
    optimize_cart Examples.iso_parse Examples.store Examples.morning "user_003"
      [Examples.airpods; Examples.diapers] = Ok r
    /\ List.length (recommendations r) = 2%nat.
Proof.
  destruct (recommendations_cover_cart Examples.iso_parse Examples.store
              Examples.morning "user_003" Examples.emily
              [Examples.airpods; Examples.diapers])
    as (r & Hr & Hlen & _).
  - vm_compute. reflexivity.
  - vm_compute. reflexivity.
  - exists r. split; [exact Hr|exact Hlen].
Defined.

(** C4 fails as stated: for the cart (AirPods, Diapers) the recommendations
    come in the order (Diapers, AirPods). *)
Lemma recommendations_reordered :
  exists r,
    optimize_cart Examples.iso_parse Examples.store Examples.morning "user_003"
      [Examples.airpods; Examples.diapers] = Ok r
    /\ map item (recommendations r) = [mark Examples.diapers; mark Examples.airpods]
    /\ map item (recommendations r) <> map mark [Examples.airpods; Examples.diapers].
Proof.
  eexists. split; [vm_compute; reflexivity|]. split.
  - vm_compute. reflexivity.
  - vm_compute. discriminate.
Qed.

Lemma done_from_cart (items : list CartItem) (i : CartItem) :
  In i (fst (classify_items items) ++ snd (classify_items items)) ->
  exists j, In j items /\ i = mark j.
Proof.
  intros H. apply (Permutation_in _ (classify_items_Permutation items)) in H.
  apply in_map_iff in H as (j & <- & Hj). eauto.
Qed.

Lemma cart_in_done (items : list CartItem) (i : CartItem) :
  In i items ->
  In (mark i) (fst (classify_items items) ++ snd (classify_items items)).
Proof.
  intros H. eapply Permutation_in; [symmetry; apply classify_items_Permutation|].
  now apply in_map.
Qed.

(** C5, as the source has it.  Every cart item priced above $2000 gets
    strategy [PAY_NOW] and lies in the pay-now partition.  The warning that
    names it is appended when the item reaches the price rule of the
    deferral policy: its category is not essential, the item is itself
    eligible, and the account is eligible.  For an account that is not
    eligible the only warning is that of the first-payment check. *)
Theorem above_maximum_pay_now (parse_date : string -> option datetime)
    (users : gmap string User) (now : datetime) (user_id : string)
    (user : User) (items : list CartItem) :
  users !! user_id = Some user ->
  dates_parse parse_date user = true ->
  exists r,
    optimize_cart parse_date users now user_id items = Ok r
    /\ (forall i, In i items -> (BNPL_MAX_AMOUNT < price i)%Q ->
          (exists rec, In rec (recommendations r)
                       /\ item rec = mark i /\ strategy rec = PAY_NOW)
          /\ In (mark i) (pay_now_items r)
          /\ ~ In (mark i) (bnpl_items r))
    /\ (forall rec, In rec (recommendations r) ->
          (BNPL_MAX_AMOUNT < price (item rec))%Q -> strategy rec = PAY_NOW)
    /\ (u_bnpl_eligible user = Some true ->
        forall i, In i items -> (BNPL_MAX_AMOUNT < price i)%Q ->
          ~ In (category i) ESSENTIAL_CATEGORIES -> bnpl_eligible i = true ->
          In (name i ++ " exceeds BNPL maximum amount.") (warnings r))
    /\ (u_bnpl_eligible user <> Some true ->
        warnings r
        = balance_warning
            (first_payment_balance (u_bank_balance user)
               (pay_now_items r) (bnpl_items r))).
Proof.
  intros Hu Hd.
  destruct (optimize_cart_known parse_date users now user_id user items Hu Hd)
    as (finances & r & Hr & Hb & He & Ha & Hinv).
  destruct Ha as (Erec & Epn & Ebn & _ & _ & Ew & _).
  exists r. split; [exact Hr|]. rewrite Erec, Epn, Ebn, Ew, Hb.
  split; [|split; [|split]].
  - intros i Hi Hp.
    eapply pay_now_member; [exact Hinv|now apply cart_in_done|now right].
  - intros rec Hrec Hp. now apply (inv_above_max _ _ _ Hinv).
  - intros Hel i Hi Hp Hc Hbe. apply in_or_app. left.
    apply (inv_warned _ _ _ Hinv) with (i := mark i).
    + rewrite He, Hel. reflexivity.
    + now apply cart_in_done.
    + rewrite is_candidate_mark. unfold is_candidate.
      destruct (in_essential (category i)) eqn:Hc'.
      * apply in_essential_In in Hc'. contradiction.
      * rewrite Hbe. cbn [negb andb]. apply Qgeb_true.
        unfold BNPL_MIN_AMOUNT, BNPL_MAX_AMOUNT in *. lra.
    + exact Hp.
  - intros Hel. rewrite (inv_silent _ _ _ Hinv); [reflexivity|].
    rewrite He. destruct (u_bnpl_eligible user) as [[|]|]; congruence.
Qed.

Lemma above_maximum_pay_now_witness :
  exists r,
    optimize_cart Examples.iso_parse Examples.store Examples.morning "user_003"
      [Examples.item_of "Television" 2500 "Electronics"] = Ok r
    /\ In "Television exceeds BNPL maximum amount." (warnings r).
Proof.
  destruct (above_maximum_pay_now Examples.iso_parse Examples.store
              Examples.morning "user_003" Examples.emily
              [Examples.item_of "Television" 2500 "Electronics"])
    as (r & Hr & _ & _ & Hwarn & _).
  - vm_compute. reflexivity.
  - vm_compute. reflexivity.
  - exists r. split; [exact Hr|].
    apply (Hwarn eq_refl (Examples.item_of "Television" 2500 "Electronics")).
    + simpl. auto.
    + reflexivity.
    + intros [H|[H|[H|[H|[]]]]]; discriminate H.
    + reflexivity.
Defined.

(** C5 fails as stated: for an account that may not defer payments, a
    television at $2500 is paid now without any warning. *)
Lemma above_maximum_unwarned :
  exists r,
    optimize_cart Examples.iso_parse Examples.store Examples.morning "user_001"
      [Examples.item_of "Television" 2500 "Electronics"] = Ok r
    /\ map strategy (recommendations r) = [PAY_NOW]
    /\ warnings r = []
    /\ ~ In "Television exceeds BNPL maximum amount." (warnings r).
Proof.
  eexists. split; [vm_compute; reflexivity|]. repeat split.
  intros H. exact H.
Qed.




Lemma balance_warning_cases (projected : Q) :
  ((projected < 0)%Q ->
   balance_warning projected
   = ["⚠ Warning: This purchase would overdraw your account by $"
        ++ format_2f (Qabs projected) ++ "!"])
  /\ ((0 <= projected)%Q -> (projected < 100)%Q ->
      balance_warning projected
      = ["⚠ Caution: This would leave only $"
           ++ format_2f projected ++ " in your account."])
  /\ ((100 <= projected)%Q -> balance_warning projected = []).
Proof.
  unfold balance_warning. repeat split.
  - intros H. apply Qltb_true in H. now rewrite H.
  - intros H0 H1. apply Qltb_false in H0. apply Qltb_true in H1.
    now rewrite H0, H1.
  - intros H.
    assert (H0 : Qltb projected 0 = false) by (apply Qltb_false; lra).
    apply Qltb_false in H. now rewrite H0, H.
Qed.







(** ** Failure *)



(** ** The calendar builder *)


Lemma insert_by_date_Permutation (e : CalendarEvent) (l : list CalendarEvent) :
  Permutation (insert_by_date e l) (e :: l).
Proof.
  induction l as [|x l IH]; simpl.
  - reflexivity.
  - destruct (String.leb (ev_date e) (ev_date x)).
    + reflexivity.
    + rewrite IH. apply perm_swap.
Qed.

Lemma sort_by_date_Permutation (l : list CalendarEvent) :
  Permutation (sort_by_date l) l.
Proof.
  induction l as [|x l IH]; simpl.
  - reflexivity.
  - rewrite insert_by_date_Permutation. now constructor.
Qed.









(** C10.  For a profile whose next paycheck falls outside the 30 days that
    follow now (before now, or after now + 30 days), the snapshot still
    reports the date of the paycheck, with an expected amount of 0, and the
    calendar holds an INCOME event of amount 0 at that date. *)
Theorem paycheck_outside_window (parse_date : string -> option datetime)
    (users : gmap string User) (now : datetime) (user_id : string)
    (user : User) (paycheck : Paycheck) (t : datetime)
    (optimization : CartOptimization) :
  users !! user_id = Some user ->
  dates_parse parse_date user = true ->
  u_next_paycheck user = Some paycheck ->
  parse_date (p_date paycheck) = Some t ->
  t < now \/ now + days 30 < t ->
  exists finances events,
    calculate_available_funds parse_date users now user_id 30 = Ok finances
    /\ fin_paycheck_date finances = Some (isoformat t)
    /\ fin_paycheck_expected finances = 0%Q
    /\ get_payment_calendar parse_date users now optimization user_id = Ok events
    /\ In (income_event t 0) events.
Proof.
  intros Hu Hd Hpc Ht Hout.
  destruct (calculate_available_funds_known parse_date users now user_id 30 user Hu Hd)
    as (finances & Hf & _ & _ & _ & Hpay).
  rewrite Hpc in Hpay. destruct Hpay as (t' & Ht' & Hdate & Hamount).
  assert (t' = t) by congruence. subst t'.
  assert (Hw : ((now <=? t) && (t <=? now + days 30))%bool = false).
  { apply andb_false_iff. destruct Hout; [left|right]; apply Z.leb_gt; lia. }
  rewrite Hw in Hamount.
  exists finances, (sort_by_date (calendar_events now optimization finances)).
  repeat split; auto.
  - unfold get_payment_calendar. now rewrite Hf.
  - eapply Permutation_in; [symmetry; apply sort_by_date_Permutation|].
    unfold calendar_events. rewrite Hdate, Hamount.
    apply in_or_app. right. apply in_or_app. right. apply in_or_app. right.
    left. reflexivity.
Qed.

Lemma paycheck_outside_window_witness :
  exists events,
    get_payment_calendar Examples.iso_parse Examples.store Examples.morning
      {| pay_now_items := []; bnpl_items := []; pay_now_total := 0;
         bnpl_total := 0; monthly_bnpl_payment := 0; recommendations := [];
         summary := ""; warnings := []; projected_balance := 9000 |}
      "user_001" = Ok events
    /\ In (income_event (make_datetime 2024 3 1 0 0 0) 0) events.
Proof.
  destruct (paycheck_outside_window Examples.iso_parse Examples.store
              Examples.morning "user_001" Examples.james
              {| p_date := "2024-03-01"; p_amount := 3000 |}
              (make_datetime 2024 3 1 0 0 0)
              {| pay_now_items := []; bnpl_items := []; pay_now_total := 0;
                 bnpl_total := 0; monthly_bnpl_payment := 0; recommendations := [];
                 summary := ""; warnings := []; projected_balance := 9000 |})
    as (finances & events & _ & _ & _ & He & Hin).
  - vm_compute. reflexivity.
  - vm_compute. reflexivity.
  - reflexivity.
  - vm_compute. reflexivity.
  - right. vm_compute. reflexivity.
  - exists events. split; [exact He|exact Hin].
Defined.

(** ** Worked examples *)

(** Balance $500, bills of $300 in the window, a buffer of $50: $150 are
    spendable and an installment of up to $37.50 is safe. *)
Example emily_snapshot :
  exists finances,
    calculate_available_funds Examples.iso_parse Examples.store Examples.morning
      "user_003" 30 = Ok finances
    /\ (fin_total_bills finances == 300)%Q
    /\ (fin_available_for_spending finances == 150)%Q
    /\ (fin_safe_bnpl_installment finances == 37.5)%Q.
Proof. eexists. split; [vm_compute; reflexivity|]. repeat split. Qed.

(** Diapers are paid now; with them the AirPods would exceed the $150, so
    they are deferred in payments of 37.50, 37.50, 37.50 and 37.49. *)
Example diapers_and_airpods :
  exists r,
    optimize_cart Examples.iso_parse Examples.store Examples.morning "user_003"
      [Examples.diapers; Examples.airpods] = Ok r
    /\ map strategy (recommendations r) = [PAY_NOW; BNPL]
    /\ map name (bnpl_items r) = ["Apple AirPods"]
    /\ Forall2 Qeq
         (plan_payments (calculate_bnpl_plan Examples.morning 149.99 4))
         [37.5; 37.5; 37.5; 37.49]%Q
    /\ plan_payment_dates (calculate_bnpl_plan Examples.morning 149.99 4)
       = ["2024-01-10"; "2024-01-24"; "2024-02-07"; "2024-02-21"].
Proof.
  eexists. split; [vm_compute; reflexivity|]. repeat split.
  vm_compute. repeat constructor.
Qed.

(** A $10 item of clothing is below the deferral minimum: it is paid now
    although its category is not essential. *)
Example small_item_pays_now :
  classify_items [Examples.item_of "Socks" 10 "Clothing"]
  = ([Examples.item_of "Socks" 10 "Clothing"], []).
Proof. reflexivity. Qed.


(** * Further properties *)

(** ** Rounding *)

Section RoundingFacts.

Local Open Scope Q_scope.

(** The nearest integer is at most one half away. *)
Lemma round_half_even_near (x : Q) :
  x - (1 # 2) <= inject_Z (round_half_even x) <= x + (1 # 2).
Proof.
  unfold round_half_even.
  pose proof (Qfloor_le x) as Hlo. pose proof (Qlt_floor x) as Hhi.
  rewrite inject_Z_plus in Hhi. change (inject_Z 1) with 1 in Hhi.
  destruct (Qcompare_spec (x - inject_Z (Qfloor x)) (1 # 2)) as [E|L|G].
  - destruct (Z.even (Qfloor x)); rewrite ?inject_Z_plus;
      change (inject_Z 1) with 1; split; lra.
  - split; lra.
  - rewrite inject_Z_plus. change (inject_Z 1) with 1. split; lra.
Qed.

Lemma round_half_even_mono (x y : Q) :
  x <= y -> (round_half_even x <= round_half_even y)%Z.
Proof.
  intros Hxy.
  pose proof (Qfloor_resp_le _ _ Hxy) as Hf.
  assert (Bx : (Qfloor x <= round_half_even x <= Qfloor x + 1)%Z).
  { unfold round_half_even.
    destruct (Qcompare _ _); [destruct (Z.even _)| |]; lia. }
  assert (By : (Qfloor y <= round_half_even y <= Qfloor y + 1)%Z).
  { unfold round_half_even.
    destruct (Qcompare _ _); [destruct (Z.even _)| |]; lia. }
  destruct (Z.eq_dec (Qfloor x) (Qfloor y)) as [E|N]; [|lia].
  unfold round_half_even in *. rewrite E in *.
  destruct (Qcompare_spec (x - inject_Z (Qfloor y)) (1 # 2)) as [Ex|Lx|Gx];
    destruct (Qcompare_spec (y - inject_Z (Qfloor y)) (1 # 2)) as [Ey|Ly|Gy];
    try destruct (Z.even (Qfloor y)); try lia; exfalso; lra.
Qed.

Lemma round2_mono (x y : Q) : x <= y -> round2 x <= round2 y.
Proof.
  intros H. unfold round2.
  apply Qmult_le_compat_r; [|vm_compute; discriminate].
  rewrite <- Zle_Qle. apply round_half_even_mono. lra.
Qed.

Lemma round2_nonneg (x : Q) : 0 <= x -> 0 <= round2 x.
Proof.
  intros H. apply (Qle_trans _ (round2 0)); [|now apply round2_mono].
  vm_compute. discriminate.
Qed.

(** [round(x, 2)] is at most half a cent away from [x]. *)
Lemma round2_near (x : Q) : x - (1 # 200) <= round2 x <= x + (1 # 200).
Proof.
  unfold round2. pose proof (round_half_even_near (x * 100)) as [H1 H2].
  split.
  - apply Qle_shift_div_l; lra.
  - apply Qle_shift_div_r; lra.
Qed.

(** Equal amounts round to the same value. *)
Lemma round2_comp (x y : Q) : x == y -> round2 x = round2 y.
Proof.
  intros H. unfold round2, round_half_even.
  assert (E : x * 100 == y * 100) by now rewrite H.
  rewrite (Qfloor_comp _ _ E).
  assert (C : Qcompare (x * 100 - inject_Z (Qfloor (y * 100))) (1 # 2)
              = Qcompare (y * 100 - inject_Z (Qfloor (y * 100))) (1 # 2)).
  { apply Qcompare_comp; [now rewrite E|reflexivity]. }
  now rewrite C.
Qed.

Lemma max0_nonneg (x : Q) : 0 <= max0 x.
Proof. unfold max0. destruct (Qlt_le_dec 0 x); lra. Qed.

Lemma max0_zero (x : Q) : x <= 0 -> max0 x = 0.
Proof.
  intros H. unfold max0. destruct (Qlt_le_dec 0 x); [lra|reflexivity].
Qed.

End RoundingFacts.

(** ** More on the snapshot builder *)

Lemma bills_loop_closed (parse_date : string -> option datetime)
    (today : datetime) (days_ahead : Z) (bills : list Bill)
    (upcoming : list UpcomingBill) (total : Q) :
  forallb (fun b => match parse_date (b_due_date b) with
                    | Some _ => true | None => false end) bills = true ->
  for_each (bill_step parse_date today (today + days days_ahead)) bills
    (upcoming, total)
  = Ok ((upcoming
           ++ map (upcoming_entry parse_date today)
                (List.filter (due_in_window parse_date today days_ahead) bills))%list,
        fold_left Qplus
          (map b_amount (List.filter (due_in_window parse_date today days_ahead) bills))
          total).
Proof.
  revert upcoming total.
  induction bills as [|b bills IH]; intros upcoming total Hp.
  - simpl. now rewrite app_nil_r.
  - simpl in Hp. apply andb_prop in Hp as [Hb Hp].
    destruct (parse_date (b_due_date b)) as [t|] eqn:Ht; [|discriminate].
    assert (W : due_in_window parse_date today days_ahead b
                = ((today <=? t) && (t <=? today + days days_ahead))%bool)
      by (unfold due_in_window; now rewrite Ht).
    cbn [for_each bill_step bind List.filter]. unfold parse.
    rewrite Ht, W. cbn [bind].
    destruct ((today <=? t) && (t <=? today + days days_ahead))%bool; cbn [bind].
    + rewrite (IH _ _ Hp). cbn [map fold_left]. rewrite <- app_assoc.
      unfold upcoming_entry at 2. rewrite Ht. reflexivity.
    + apply (IH _ _ Hp).
Qed.

(** The fields of the snapshot of a known profile whose dates parse. *)
Lemma calculate_available_funds_fields (parse_date : string -> option datetime)
    (users : gmap string User) (now : datetime) (user_id : string)
    (days_ahead : Z) (user : User) :
  users !! user_id = Some user ->
  dates_parse parse_date user = true ->
  exists finances,
    calculate_available_funds parse_date users now user_id days_ahead = Ok finances
    /\ fin_current_balance finances = u_bank_balance user
    /\ fin_upcoming_bills finances
       = map (upcoming_entry parse_date now)
           (List.filter (due_in_window parse_date now days_ahead)
              (u_upcoming_bills user))
    /\ fin_total_bills finances
       = sum (map b_amount
                (List.filter (due_in_window parse_date now days_ahead)
                   (u_upcoming_bills user)))
    /\ fin_projected_balance finances
       = round2 (u_bank_balance user - fin_total_bills finances
                 + fin_paycheck_expected finances)
    /\ fin_available_for_spending finances
       = round2 (max0 (u_bank_balance user - fin_total_bills finances
                       - u_bank_balance user * (10 # 100)))
    /\ fin_safe_bnpl_installment finances
       = round2 (max0 (u_bank_balance user - fin_total_bills finances
                       - u_bank_balance user * (10 # 100)) * (25 # 100)).
Proof.
  intros Hu Hd. unfold calculate_available_funds, get_user. rewrite Hu.
  unfold dates_parse in Hd. apply andb_prop in Hd as [Hb Hp].
  rewrite (bills_loop_closed parse_date now days_ahead _ [] 0%Q Hb).
  cbn [bind app].
  destruct (u_next_paycheck user) as [paycheck|].
  - destruct (parse_ok parse_date _ Hp) as (t & Ht & _). rewrite Ht. cbn [bind].
    destruct ((now <=? t) && (t <=? now + days days_ahead))%bool; cbn [bind];
      eexists; (split; [reflexivity|]); cbn; repeat split.
  - cbn [bind]. eexists. split; [reflexivity|]. cbn. repeat split.
Qed.

Lemma due_in_window_days (parse_date : string -> option datetime)
    (now : datetime) (days_ahead : Z) (bill : Bill) :
  due_in_window parse_date now days_ahead bill = true ->
  0 <= ub_days_until (upcoming_entry parse_date now bill) <= days_ahead.
Proof.
  unfold due_in_window, upcoming_entry. cbn [ub_days_until].
  destruct (parse_date (b_due_date bill)) as [t|]; [|discriminate].
  intros H. apply andb_prop in H as [H1 H2].
  apply Z.leb_le in H1. apply Z.leb_le in H2.
  unfold delta_days, days in *.
  assert (U : 0 < usec_per_day) by reflexivity.
  split.
  - apply Z.div_pos; lia.
  - apply Z.div_le_upper_bound; lia.
Qed.

(** X1.  The upcoming bills of the snapshot are the bills of the profile
    that are due from now to now + [days_ahead] days, both bounds included,
    in the order of the profile and with name, amount and due-date text
    unchanged; [total_bills] is the sum of their amounts, and each
    [days_until] lies between 0 and [days_ahead]. *)
Theorem snapshot_upcoming_bills (parse_date : string -> option datetime)
    (users : gmap string User) (now : datetime) (user_id : string)
    (days_ahead : Z) (user : User) :
  users !! user_id = Some user ->
  dates_parse parse_date user = true ->
  exists finances,
    calculate_available_funds parse_date users now user_id days_ahead = Ok finances
    /\ map (fun b => (ub_name b, ub_amount b, ub_due_date b))
           (fin_upcoming_bills finances)
       = map (fun b => (b_name b, b_amount b, b_due_date b))
           (List.filter (due_in_window parse_date now days_ahead)
              (u_upcoming_bills user))
    /\ fin_total_bills finances = sum (map ub_amount (fin_upcoming_bills finances))
    /\ Forall (fun b => 0 <= ub_days_until b <= days_ahead)
         (fin_upcoming_bills finances).
Proof.
  intros Hu Hd.
  destruct (calculate_available_funds_fields parse_date users now user_id
              days_ahead user Hu Hd)
    as (finances & Hf & _ & Hup & Htot & _).
  exists finances. split; [exact Hf|]. rewrite Htot, Hup.
  split; [|split].
  - rewrite !map_map. reflexivity.
  - rewrite map_map. reflexivity.
  - apply List.Forall_forall. intros b Hb.
    apply in_map_iff in Hb as (bill & <- & Hin).
    apply filter_In in Hin as [_ Hw]. now apply due_in_window_days.
Qed.

Lemma snapshot_upcoming_bills_witness :
  exists finances,
    calculate_available_funds Examples.iso_parse Examples.store Examples.morning
      "user_003" 30 = Ok finances
    /\ List.length (fin_upcoming_bills finances) = 2%nat.
Proof.
  destruct (snapshot_upcoming_bills Examples.iso_parse Examples.store
              Examples.morning "user_003" 30 Examples.emily)
    as (finances & Hf & Hup & _).
  - vm_compute. reflexivity.
  - vm_compute. reflexivity.
  - exists finances. split; [exact Hf|].
    apply (f_equal (@List.length _)) in Hup.
    rewrite !length_map in Hup. rewrite Hup. vm_compute. reflexivity.
Defined.

(** X2.  The spendable amount of the snapshot is never negative, and
    neither is the safe installment, which never exceeds the spendable
    amount.  With [raw] the balance less the bills of the window and less a
    tenth of the balance: when [raw] is not positive both are 0, and
    otherwise the spendable amount is within half a cent of [raw]. *)
Theorem snapshot_spendable (parse_date : string -> option datetime)
    (users : gmap string User) (now : datetime) (user_id : string)
    (days_ahead : Z) (user : User) :
  users !! user_id = Some user ->
  dates_parse parse_date user = true ->
  exists finances,
    calculate_available_funds parse_date users now user_id days_ahead = Ok finances
    /\ let raw := (u_bank_balance user - fin_total_bills finances
                   - u_bank_balance user * (10 # 100))%Q in
       (0 <= fin_available_for_spending finances)%Q
       /\ (0 <= fin_safe_bnpl_installment finances)%Q
       /\ (fin_safe_bnpl_installment finances
           <= fin_available_for_spending finances)%Q
       /\ ((raw <= 0)%Q ->
           (fin_available_for_spending finances == 0)%Q
           /\ (fin_safe_bnpl_installment finances == 0)%Q)
       /\ ((0 <= raw)%Q ->
           (raw - (1 # 200) <= fin_available_for_spending finances)%Q
           /\ (fin_available_for_spending finances <= raw + (1 # 200))%Q).
Proof.
  intros Hu Hd.
  destruct (calculate_available_funds_fields parse_date users now user_id
              days_ahead user Hu Hd)
    as (finances & Hf & _ & _ & _ & _ & Hav & Hsafe).
  exists finances. split; [exact Hf|]. cbv zeta. rewrite Hav, Hsafe.
  set (raw := (u_bank_balance user - fin_total_bills finances
               - u_bank_balance user * (10 # 100))%Q).
  pose proof (max0_nonneg raw) as Hm.
  split; [|split; [|split; [|split]]].
  - now apply round2_nonneg.
  - apply round2_nonneg. nra.
  - apply round2_mono. nra.
  - intros Hr. rewrite (max0_zero raw Hr). split; reflexivity.
  - intros Hr.
    assert (E : (max0 raw == raw)%Q).
    { unfold max0. destruct (Qlt_le_dec 0 raw); lra. }
    pose proof (round2_near (max0 raw)) as [H1 H2]. split; lra.
Qed.

Lemma snapshot_spendable_witness :
  exists finances,
    calculate_available_funds Examples.iso_parse Examples.store Examples.morning
      "user_003" 30 = Ok finances
    /\ (0 <= fin_available_for_spending finances)%Q.
Proof.
  destruct (snapshot_spendable Examples.iso_parse Examples.store
              Examples.morning "user_003" 30 Examples.emily)
    as (finances & Hf & Hnn & _).
  - vm_compute. reflexivity.
  - vm_compute. reflexivity.
  - exists finances. split; [exact Hf|exact Hnn].
Defined.

(** X3.  A paycheck dated from now to now + [days_ahead] days, both
    bounds included, is expected with its full amount, and the projected
    balance of the snapshot is the balance less the bills of the window
    plus the expected paycheck, rounded to two decimals; a profile without
    a paycheck record has no paycheck date and expects 0. *)
Theorem snapshot_paycheck (parse_date : string -> option datetime)
    (users : gmap string User) (now : datetime) (user_id : string)
    (days_ahead : Z) (user : User) :
  users !! user_id = Some user ->
  dates_parse parse_date user = true ->
  exists finances,
    calculate_available_funds parse_date users now user_id days_ahead = Ok finances
    /\ fin_projected_balance finances
       = round2 (u_bank_balance user - fin_total_bills finances
                 + fin_paycheck_expected finances)
    /\ (u_next_paycheck user = None ->
        fin_paycheck_date finances = None
        /\ fin_paycheck_expected finances = 0%Q)
    /\ (forall paycheck t,
          u_next_paycheck user = Some paycheck ->
          parse_date (p_date paycheck) = Some t ->
          now <= t <= now + days days_ahead ->
          fin_paycheck_date finances = Some (isoformat t)
          /\ fin_paycheck_expected finances = p_amount paycheck).
Proof.
  intros Hu Hd.
  destruct (calculate_available_funds_fields parse_date users now user_id
              days_ahead user Hu Hd)
    as (finances & Hf & _ & _ & _ & Hproj & _).
  destruct (calculate_available_funds_known parse_date users now user_id
              days_ahead user Hu Hd)
    as (finances' & Hf' & _ & _ & _ & Hpay).
  assert (finances' = finances) by congruence. subst finances'.
  exists finances. split; [exact Hf|]. split; [exact Hproj|]. split.
  - intros Hnone. now rewrite Hnone in Hpay.
  - intros paycheck t Hpc Ht Hw. rewrite Hpc in Hpay.
    destruct Hpay as (t' & Ht' & Hdate & Hamount).
    assert (t' = t) by congruence. subst t'.
    split; [exact Hdate|]. rewrite Hamount.
    assert (W : ((now <=? t) && (t <=? now + days days_ahead))%bool = true).
    { apply andb_true_intro. split; apply Z.leb_le; lia. }
    now rewrite W.
Qed.

Lemma snapshot_paycheck_witness :
  exists finances,
    calculate_available_funds Examples.iso_parse Examples.store Examples.morning
      "user_003" 30 = Ok finances
    /\ fin_paycheck_expected finances = 1200%Q.
Proof.
  destruct (snapshot_paycheck Examples.iso_parse Examples.store
              Examples.morning "user_003" 30 Examples.emily)
    as (finances & Hf & _ & _ & Hin).
  - vm_compute. reflexivity.
  - vm_compute. reflexivity.
  - exists finances. split; [exact Hf|].
    apply (Hin {| p_date := "2024-01-15"; p_amount := 1200 |}
               (make_datetime 2024 1 15 0 0 0)).
    + reflexivity.
    + vm_compute. reflexivity.
    + vm_compute. split; discriminate.
Defined.


(** ** More on the item classifier *)

Lemma mark_mark (i : CartItem) : mark (mark i) = mark i.
Proof. reflexivity. Qed.

(** X4.  [classify_items] splits the cart into two lists that keep the
    order of the cart.  The second list holds the items whose category is
    not essential, that are themselves eligible and that cost at least $35;
    all other items are in the first list.  The flag [is_essential] of
    every item tells whether its category is essential, so a non-essential
    item that is cheap or not eligible is in the first list with the flag
    off. *)
Theorem classify_items_partitions (items : list CartItem) :
  fst (classify_items items)
  = List.filter (fun i => negb (is_candidate i)) (map mark items)
  /\ snd (classify_items items) = List.filter is_candidate (map mark items)
  /\ (forall i, In i (snd (classify_items items)) ->
        ~ In (category i) ESSENTIAL_CATEGORIES
        /\ bnpl_eligible i = true
        /\ (BNPL_MIN_AMOUNT <= price i)%Q)
  /\ (forall i, In i (fst (classify_items items) ++ snd (classify_items items)) ->
        (is_essential i = true <-> In (category i) ESSENTIAL_CATEGORIES)).
Proof.
  rewrite classify_items_filter. cbn [fst snd]. repeat split.
  - apply filter_In in H as [_ H]. unfold is_candidate in H.
    intros Hc. apply in_essential_In in Hc. rewrite Hc in H. discriminate.
  - apply filter_In in H as [_ H]. unfold is_candidate in H.
    apply andb_prop in H as [_ H]. now apply andb_prop in H as [H _].
  - apply filter_In in H as [_ H]. unfold is_candidate in H.
    apply andb_prop in H as [_ H]. apply andb_prop in H as [_ H].
    now apply Qgeb_true.
  - intros Hf.
    apply (Permutation_in _ (filter_split_Permutation is_candidate _)) in H.
    apply in_map_iff in H as (j & <- & _). now apply in_essential_In.
  - intros Hc.
    apply (Permutation_in _ (filter_split_Permutation is_candidate _)) in H.
    apply in_map_iff in H as (j & <- & _). now apply in_essential_In.
Qed.

Lemma classify_items_mark (items : list CartItem) :
  classify_items (map mark items) = classify_items items.
Proof.
  rewrite !classify_items_filter, map_map.
  now rewrite (map_ext (fun i => mark (mark i)) mark mark_mark).
Qed.

(** X5.  [optimize_cart] leaves the flag [is_essential] set on the items
    of the cart.  Called again on the cart as the first call left it, it
    returns the same result: the flags it sets do not feed back into its
    decisions. *)
Theorem optimize_cart_again (parse_date : string -> option datetime)
    (users : gmap string User) (now : datetime) (user_id : string)
    (items : list CartItem) :
  optimize_cart parse_date users now user_id (map mark items)
  = optimize_cart parse_date users now user_id items.
Proof. unfold optimize_cart. now rewrite classify_items_mark. Qed.

(** ** More on the loops of the optimizer *)

(** The six outcomes of the deferral policy for the item [i], in the order
    of the source, the account that is not eligible last. *)
Ltac policy_cases finances essential_total available safe_installment i :=
  destruct (fin_bnpl_eligible finances) eqn:Heligible; cbn [negb];
  [ destruct (Qgtb (price i) BNPL_MAX_AMOUNT) eqn:Hmax;
    [ | destruct (Qgtb essential_total available) eqn:Htight;
        [ | destruct (Qgtb (essential_total + price i) available) eqn:Hover;
            [ | destruct (Qleb (price i / 4) safe_installment) eqn:Hfit ] ] ]
  | ].

Lemma Qgtb_false (x y : Q) : Qgtb x y = false <-> (x <= y)%Q.
Proof. apply Qltb_false. Qed.

Lemma Qleb_true (x y : Q) : Qleb x y = true <-> (x <= y)%Q.
Proof. apply Qle_bool_iff. Qed.

Lemma Qleb_false (x y : Q) : Qleb x y = false -> ~ (x <= y)%Q.
Proof. intros H Hle. apply Qleb_true in Hle. congruence. Qed.

Lemma essential_step_decided (now : datetime) (finances : Finances)
    (essential_total : Q) (st : LoopState) (i : CartItem) :
  is_candidate i = false ->
  Forall (decided now finances essential_total) (st_recommendations st) ->
  Forall (decided now finances essential_total)
    (st_recommendations (essential_step st i)).
Proof.
  intros Hc H. destruct st as [[[recs ws] pn] bn]. cbn in *.
  apply Forall_app. split; [exact H|]. constructor; [|constructor].
  unfold decided, plan_fields. cbn. split; [repeat split|].
  split; [discriminate|]. intros (Hcand & _). congruence.
Qed.

Lemma discretionary_step_decided (now : datetime) (finances : Finances)
    (essential_total : Q) (st : LoopState) (i : CartItem) :
  is_candidate i = true ->
  Forall (decided now finances essential_total) (st_recommendations st) ->
  Forall (decided now finances essential_total)
    (st_recommendations
       (discretionary_step now finances essential_total
          (fin_available_for_spending finances)
          (fin_safe_bnpl_installment finances) st i)).
Proof.
  intros Hc H. destruct st as [[[recs ws] pn] bn]. unfold discretionary_step.
  policy_cases finances essential_total (fin_available_for_spending finances)
    (fin_safe_bnpl_installment finances) i;
    cbn [st_recommendations fst snd] in *;
    (apply Forall_app; split; [exact H|]); (constructor; [|constructor]);
    unfold decided, plan_fields, deferral_rule;
    cbn [strategy item payment_plan installment_amount payment_dates
           recommend recommend_bnpl].
  - apply Qgtb_true in Hmax. split; [repeat split|]. split; [discriminate|].
    intros (_ & _ & Hle & _). lra.
  - apply Qgtb_false in Hmax. apply Qgtb_true in Htight.
    split; [repeat split|]. split; [|reflexivity]. intros _. repeat split; auto.
  - apply Qgtb_false in Hmax. apply Qgtb_true in Hover.
    split; [repeat split|]. split; [|reflexivity]. intros _. repeat split; auto.
  - apply Qgtb_false in Hmax. apply Qleb_true in Hfit.
    split; [repeat split|]. split; [|reflexivity]. intros _. repeat split; auto.
  - apply Qgtb_false in Htight. apply Qgtb_false in Hover.
    apply Qleb_false in Hfit.
    split; [repeat split|]. split; [discriminate|].
    intros (_ & _ & _ & [Hr|[Hr|Hr]]); [lra|lra|contradiction].
  - split; [repeat split|]. split; [discriminate|].
    intros (_ & Hel & _). congruence.
Qed.

Lemma final_state_decided (now : datetime) (finances : Finances)
    (items : list CartItem) :
  Forall (decided now finances (sum_prices (fst (classify_items items))))
    (st_recommendations (final_state now finances items)).
Proof.
  unfold final_state. rewrite classify_items_filter. cbn [fst snd].
  set (essential := List.filter (fun i => negb (is_candidate i)) (map mark items)).
  set (discretionary := List.filter is_candidate (map mark items)).
  apply (fold_left_invariant _ discretionary
           (fun s _ => Forall (decided now finances (sum_prices essential))
                         (st_recommendations s))).
  - apply (fold_left_invariant _ essential
             (fun s _ => Forall (decided now finances (sum_prices essential))
                           (st_recommendations s))).
    + constructor.
    + intros s pre x Hx Hs. apply essential_step_decided; auto.
      apply filter_In in Hx as [_ Hx]. now destruct (is_candidate x).
  - intros s pre x Hx Hs. apply discretionary_step_decided; auto.
    now apply filter_In in Hx as [_ Hx].
Qed.




(** ** More on the cart optimizer *)

Lemma optimize_cart_monthly (parse_date : string -> option datetime)
    (users : gmap string User) (now : datetime) (user_id : string)
    (items : list CartItem) (user : User) (finances : Finances)
    (r : CartOptimization) :
  users !! user_id = Some user ->
  calculate_available_funds parse_date users now user_id 30 = Ok finances ->
  optimize_cart parse_date users now user_id items = Ok r ->
  monthly_bnpl_payment r
  = round2 match st_bnpl (final_state now finances items) with
           | [] => 0
           | _ :: _ => sum_prices (st_bnpl (final_state now finances items)) / 4
           end%Q.
Proof.
  intros Hu Hf. unfold optimize_cart, get_user. rewrite Hf, Hu. cbn [bind].
  unfold final_state.
  destruct (classify_items items) as [essential discretionary].
  destruct (fold_left _ discretionary _) as [[[recs ws] pn] bn].
  intros [= <-]. reflexivity.
Qed.

(** A known profile whose dates parse: the snapshot, the result, and how
    the one is assembled from the other. *)
Lemma optimize_cart_with_snapshot (parse_date : string -> option datetime)
    (users : gmap string User) (now : datetime) (user_id : string)
    (user : User) (items : list CartItem) :
  users !! user_id = Some user ->
  dates_parse parse_date user = true ->
  exists finances r,
    calculate_available_funds parse_date users now user_id 30 = Ok finances
    /\ optimize_cart parse_date users now user_id items = Ok r
    /\ fin_current_balance finances = u_bank_balance user
    /\ fin_bnpl_eligible finances
       = match u_bnpl_eligible user with Some b => b | None => false end
    /\ assembled finances (final_state now finances items) r.
Proof.
  intros Hu Hd.
  destruct (calculate_available_funds_known parse_date users now user_id 30 user Hu Hd)
    as (finances & Hf & Hb & He & _).
  destruct (optimize_cart_assembled parse_date users now user_id items user finances
              Hu Hf) as (r & Hr & Ha).
  exists finances, r. auto.
Qed.







Lemma round_half_even_comp (x y : Q) :
  (x == y)%Q -> round_half_even x = round_half_even y.
Proof.
  intros E. unfold round_half_even. rewrite (Qfloor_comp _ _ E).
  assert (C : Qcompare (x - inject_Z (Qfloor y)) (1 # 2)
              = Qcompare (y - inject_Z (Qfloor y)) (1 # 2)).
  { apply Qcompare_comp; [now rewrite E|reflexivity]. }
  now rewrite C.
Qed.

Lemma Qltb_comp (x y z : Q) : (x == y)%Q -> Qltb x z = Qltb y z.
Proof.
  intros E. destruct (Qltb y z) eqn:H.
  - apply Qltb_true. apply Qltb_true in H. lra.
  - apply Qltb_false. apply Qltb_false in H. lra.
Qed.

Lemma format_2f_comp (x y : Q) : (x == y)%Q -> format_2f x = format_2f y.
Proof.
  intros E. unfold format_2f.
  assert (R : round_half_even (Qabs x * 100) = round_half_even (Qabs y * 100)).
  { apply round_half_even_comp. now rewrite E. }
  rewrite R.
  destruct (Qlt_le_dec x 0), (Qlt_le_dec y 0); try reflexivity; exfalso; lra.
Qed.

Lemma balance_warning_comp (x y : Q) :
  (x == y)%Q -> balance_warning x = balance_warning y.
Proof.
  intros E. unfold balance_warning.
  rewrite (Qltb_comp x y 0 E), (Qltb_comp x y 100 E).
  rewrite (format_2f_comp x y E), (format_2f_comp (Qabs x) (Qabs y)).
  - reflexivity.
  - now rewrite E.
Qed.

Lemma no_bnpl_filter (recs : list PaymentRecommendation) :
  (forall r, In r recs -> strategy r = PAY_NOW) ->
  List.filter is_bnpl recs = [].
Proof.
  induction recs as [|r recs IH]; intros H; [reflexivity|].
  simpl. unfold is_bnpl at 1. rewrite (H r) by now left.
  apply IH. intros r' Hr'. apply H. now right.
Qed.

(** X9.  On an account that is not eligible for deferred payment (the
    profile says so or says nothing), nothing is deferred: every
    recommendation is [PAY_NOW], the deferred list is empty, the deferred
    total and the installment are 0, the pay-now list holds every cart item
    once and the pay-now total is the rounded sum of all prices. *)
Theorem ineligible_account_pays_now (parse_date : string -> option datetime)
    (users : gmap string User) (now : datetime) (user_id : string)
    (user : User) (items : list CartItem) :
  users !! user_id = Some user ->
  dates_parse parse_date user = true ->
  u_bnpl_eligible user <> Some true ->
  exists r,
    optimize_cart parse_date users now user_id items = Ok r
    /\ (forall rec, In rec (recommendations r) -> strategy rec = PAY_NOW)
    /\ bnpl_items r = []
    /\ Permutation (pay_now_items r) (map mark items)
    /\ pay_now_total r = round2 (sum_prices items)
    /\ (bnpl_total r == 0)%Q
    /\ (monthly_bnpl_payment r == 0)%Q.
Proof.
  intros Hu Hd Hne.
  destruct (optimize_cart_with_snapshot parse_date users now user_id user items Hu Hd)
    as (finances & r & Hf & Hr & _ & He & Ha).
  pose proof (optimize_cart_monthly parse_date users now user_id items user
                finances r Hu Hf Hr) as Hm.
  destruct Ha as (Erec & Epn & Ebn & Etp & Etb & _).
  pose proof (final_state_invariant now finances items) as Hinv.
  pose proof (final_state_decided now finances items) as Hdec.
  rewrite List.Forall_forall in Hdec.
  set (st := final_state now finances items) in *.
  assert (Hfalse : fin_bnpl_eligible finances = false).
  { rewrite He. destruct (u_bnpl_eligible user) as [[|]|]; congruence. }
  assert (Hall : forall rec, In rec (st_recommendations st) -> strategy rec = PAY_NOW).
  { intros rec Hrec. destruct (strategy rec) eqn:Hs; [reflexivity|].
    destruct (Hdec rec Hrec) as [_ [Hiff _]].
    destruct (Hiff Hs) as (_ & Hel & _). congruence. }
  assert (Hbn : st_bnpl st = []).
  { rewrite (inv_bnpl _ _ _ Hinv), no_bnpl_filter; auto. }
  assert (Hperm : Permutation (st_pay_now st) (map mark items)).
  { pose proof (partitions_Permutation _ _ _ Hinv) as P.
    rewrite Hbn, app_nil_r in P. rewrite P. apply classify_items_Permutation. }
  exists r. split; [exact Hr|].
  rewrite Erec, Epn, Ebn, Etp, Etb, Hm, Hbn.
  repeat split; auto.
  apply round2_comp. rewrite <- (sum_prices_mark items). unfold sum_prices.
  apply sum_Permutation. now apply Permutation_map.
Qed.

Lemma ineligible_account_pays_now_witness :
  exists r,
    optimize_cart Examples.iso_parse Examples.store Examples.morning "user_001"
      [Examples.diapers; Examples.airpods] = Ok r
    /\ bnpl_items r = [].
Proof.
  destruct (ineligible_account_pays_now Examples.iso_parse Examples.store
              Examples.morning "user_001" Examples.james
              [Examples.diapers; Examples.airpods])
    as (r & Hr & _ & Hbn & _).
  - vm_compute. reflexivity.
  - vm_compute. reflexivity.
  - discriminate.
  - exists r. split; [exact Hr|exact Hbn].
Defined.

(** X10.  The empty cart is a valid input.  The result has no
    recommendation and no item, its totals and its installment are 0, and
    its projected balance is the balance, rounded.  The first-payment check
    still runs on the balance alone: the result has no warning when the
    balance is at least $100, and one warning when it is below. *)
Theorem empty_cart (parse_date : string -> option datetime)
    (users : gmap string User) (now : datetime) (user_id : string)
    (user : User) :
  users !! user_id = Some user ->
  dates_parse parse_date user = true ->
  exists r,
    optimize_cart parse_date users now user_id [] = Ok r
    /\ recommendations r = []
    /\ pay_now_items r = []
    /\ bnpl_items r = []
    /\ (pay_now_total r == 0)%Q
    /\ (bnpl_total r == 0)%Q
    /\ (monthly_bnpl_payment r == 0)%Q
    /\ projected_balance r = round2 (u_bank_balance user)
    /\ warnings r = balance_warning (u_bank_balance user)
    /\ ((100 <= u_bank_balance user)%Q -> warnings r = [])
    /\ ((u_bank_balance user < 100)%Q -> List.length (warnings r) = 1%nat).
Proof.
  intros Hu Hd.
  destruct (optimize_cart_with_snapshot parse_date users now user_id user [] Hu Hd)
    as (finances & r & Hf & Hr & Hb & _ & Ha).
  pose proof (optimize_cart_monthly parse_date users now user_id [] user
                finances r Hu Hf Hr) as Hm.
  destruct Ha as (Erec & Epn & Ebn & Etp & Etb & Ew & Ep).
  change (final_state now finances []) with (([], [], [], []) : LoopState) in *.
  cbn [st_recommendations st_pay_now st_bnpl st_warnings fst snd] in *.
  assert (Eb : (first_payment_balance (fin_current_balance finances) [] []
                == u_bank_balance user)%Q).
  { unfold first_payment_balance. rewrite Hb.
    change (sum_prices []) with 0%Q. lra. }
  assert (Hw : warnings r = balance_warning (u_bank_balance user)).
  { rewrite Ew. cbn [app]. now apply balance_warning_comp. }
  exists r. split; [exact Hr|].
  rewrite Erec, Epn, Ebn, Etp, Etb, Hm, Ep, Hw.
  destruct (balance_warning_cases (u_bank_balance user)) as (Hneg & Hlow & Hhigh).
  repeat split; auto.
  - now apply round2_comp.
  - intros Hlt. destruct (Qlt_le_dec (u_bank_balance user) 0) as [Hn|Hp].
    + now rewrite (Hneg Hn).
    + now rewrite (Hlow Hp Hlt).
Qed.

Lemma empty_cart_witness :
  exists r,
    optimize_cart Examples.iso_parse Examples.store Examples.morning "user_003" []
    = Ok r
    /\ warnings r = [].
Proof.
  destruct (empty_cart Examples.iso_parse Examples.store
              Examples.morning "user_003" Examples.emily)
    as (r & Hr & _ & _ & _ & _ & _ & _ & _ & _ & Hhigh & _).
  - vm_compute. reflexivity.
  - vm_compute. reflexivity.
  - exists r. split; [exact Hr|]. apply Hhigh. vm_compute. discriminate.
Defined.



(** ** More on the calendar builder *)

Lemma string_leb_refl (s : string) : String.leb s s = true.
Proof.
  unfold String.leb. pose proof (String.compare_antisym s s) as H.
  destruct (String.compare s s); try reflexivity. discriminate H.
Qed.

Lemma on_date_insert (d : string) (e : CalendarEvent) (l : list CalendarEvent) :
  on_date d (insert_by_date e l) = on_date d (e :: l).
Proof.
  induction l as [|x l IH]; [reflexivity|].
  cbn [insert_by_date].
  destruct (String.leb (ev_date e) (ev_date x)) eqn:Hle; [reflexivity|].
  unfold on_date in *. cbn [List.filter] in *. rewrite IH.
  destruct (String.eqb (ev_date x) d) eqn:Ex;
    destruct (String.eqb (ev_date e) d) eqn:Ee; try reflexivity.
  apply String.eqb_eq in Ex. apply String.eqb_eq in Ee.
  rewrite Ex, Ee, string_leb_refl in Hle. discriminate Hle.
Qed.

(** The sort is stable: events with the same date text keep their order. *)
Lemma on_date_sort (d : string) (l : list CalendarEvent) :
  on_date d (sort_by_date l) = on_date d l.
Proof.
  induction l as [|x l IH]; [reflexivity|].
  cbn [sort_by_date fold_right]. fold (sort_by_date l).
  rewrite on_date_insert. unfold on_date in *. cbn [List.filter].
  now rewrite IH.
Qed.

Lemma filter_Permutation_list {A : Type} (f : A -> bool) (l l' : list A) :
  Permutation l l' -> Permutation (List.filter f l) (List.filter f l').
Proof.
  induction 1 as [|x l l' _ IH|x y l|l l' l'' _ IH1 _ IH2]; cbn [List.filter].
  - constructor.
  - destruct (f x); [now constructor|exact IH].
  - destruct (f x), (f y); try reflexivity. apply perm_swap.
  - now rewrite IH1.
Qed.

Lemma cart_payments_of_calendar (now : datetime) (optimization : CartOptimization)
    (finances : Finances) :
  map ev_amount
    (List.filter is_cart_payment (calendar_events now optimization finances))
  = (- pay_now_total optimization)%Q
    :: match bnpl_items optimization with
       | [] => []
       | _ :: _ => map (fun _ => (- (bnpl_total optimization / 4))%Q) (seq 0 4)
       end.
Proof.
  unfold calendar_events. cbn [app List.filter is_cart_payment ev_type map ev_amount].
  f_equal. rewrite !List.filter_app.
  assert (Hb : List.filter is_cart_payment
                 (map bill_event (fin_upcoming_bills finances)) = []).
  { induction (fin_upcoming_bills finances) as [|b l IH]; [reflexivity|exact IH]. }
  rewrite Hb. cbn [app].
  assert (Hp : List.filter is_cart_payment
                 match fin_paycheck_date finances with
                 | Some d =>
                   [{| ev_date := d; ev_type := INCOME; ev_description := "Paycheck";
                       ev_amount := fin_paycheck_expected finances;
                       ev_balance_after := None; ev_items := None |}]
                 | None => []
                 end = []).
  { now destruct (fin_paycheck_date finances). }
  rewrite Hp, app_nil_r.
  destruct (bnpl_items optimization); reflexivity.
Qed.

(** X12.  The calendar holds exactly the events that are built, each once:
    one PAYMENT event, four BNPL_PAYMENT events when the result has
    deferred items and none otherwise, one BILL event per bill of the
    profile that is due in the 30-day window, and one INCOME event when the
    profile has a paycheck record. *)
Theorem calendar_contents (parse_date : string -> option datetime)
    (users : gmap string User) (now : datetime) (user_id : string)
    (user : User) (optimization : CartOptimization) :
  users !! user_id = Some user ->
  dates_parse parse_date user = true ->
  exists finances events,
    calculate_available_funds parse_date users now user_id 30 = Ok finances
    /\ get_payment_calendar parse_date users now optimization user_id = Ok events
    /\ Permutation events (calendar_events now optimization finances)
    /\ List.length events
       = (1 + match bnpl_items optimization with [] => 0 | _ :: _ => 4 end
          + List.length (List.filter (due_in_window parse_date now 30)
                           (u_upcoming_bills user))
          + match u_next_paycheck user with Some _ => 1 | None => 0 end)%nat.
Proof.
  intros Hu Hd.
  destruct (calculate_available_funds_fields parse_date users now user_id 30 user
              Hu Hd) as (finances & Hf & _ & Hup & _).
  destruct (calculate_available_funds_known parse_date users now user_id 30 user
              Hu Hd) as (finances' & Hf' & _ & _ & _ & Hpay).
  assert (finances' = finances) by congruence. subst finances'.
  exists finances, (sort_by_date (calendar_events now optimization finances)).
  split; [exact Hf|]. split; [unfold get_payment_calendar; now rewrite Hf|].
  split; [apply sort_by_date_Permutation|].
  rewrite (Permutation_length (sort_by_date_Permutation _)).
  unfold calendar_events. rewrite !length_app, length_map, Hup, length_map.
  cbn [List.length].
  assert (Hb : List.length match bnpl_items optimization with
                           | [] => []
                           | _ :: _ => map (bnpl_event now optimization) (seq 0 4)
                           end
               = match bnpl_items optimization with [] => 0 | _ :: _ => 4 end%nat)
    by now destruct (bnpl_items optimization).
  rewrite Hb.
  destruct (u_next_paycheck user) as [paycheck|].
  - destruct Hpay as (t & _ & -> & _). cbn [List.length]. lia.
  - destruct Hpay as [-> _]. cbn [List.length]. lia.
Qed.

Lemma calendar_contents_witness :
  exists events,
    get_payment_calendar Examples.iso_parse Examples.store Examples.morning
      {| pay_now_items := []; bnpl_items := []; pay_now_total := 0;
         bnpl_total := 0; monthly_bnpl_payment := 0; recommendations := [];
         summary := ""; warnings := []; projected_balance := 500 |}
      "user_003" = Ok events
    /\ List.length events = 4%nat.
Proof.
  destruct (calendar_contents Examples.iso_parse Examples.store
              Examples.morning "user_003" Examples.emily
              {| pay_now_items := []; bnpl_items := []; pay_now_total := 0;
                 bnpl_total := 0; monthly_bnpl_payment := 0; recommendations := [];
                 summary := ""; warnings := []; projected_balance := 500 |})
    as (finances & events & _ & He & _ & Hlen).
  - vm_compute. reflexivity.
  - vm_compute. reflexivity.
  - exists events. split; [exact He|]. rewrite Hlen. vm_compute. reflexivity.
Defined.

(** X13.  The sort of the calendar is stable: the events that carry the
    same date text come in the order in which they were built, the PAYMENT
    event first, then the BNPL_PAYMENT events, then the bills in the order
    of the profile, then the paycheck. *)
Theorem calendar_same_day_order (parse_date : string -> option datetime)
    (users : gmap string User) (now : datetime) (user_id : string)
    (user : User) (optimization : CartOptimization) :
  users !! user_id = Some user ->
  dates_parse parse_date user = true ->
  exists finances events,
    calculate_available_funds parse_date users now user_id 30 = Ok finances
    /\ get_payment_calendar parse_date users now optimization user_id = Ok events
    /\ forall d, on_date d events
                 = on_date d (calendar_events now optimization finances).
Proof.
  intros Hu Hd.
  destruct (calculate_available_funds_known parse_date users now user_id 30 user
              Hu Hd) as (finances & Hf & _).
  exists finances, (sort_by_date (calendar_events now optimization finances)).
  split; [exact Hf|]. split; [unfold get_payment_calendar; now rewrite Hf|].
  intros d. apply on_date_sort.
Qed.

Lemma calendar_same_day_order_witness :
  exists events,
    get_payment_calendar Examples.iso_parse Examples.store Examples.morning
      {| pay_now_items := []; bnpl_items := [Examples.airpods]; pay_now_total := 0;
         bnpl_total := 149.99; monthly_bnpl_payment := 37.5; recommendations := [];
         summary := ""; warnings := []; projected_balance := 500 |}
      "user_003" = Ok events
    /\ map ev_type (on_date "2024-01-10" events) = [PAYMENT; BNPL_PAYMENT].
Proof.
  destruct (calendar_same_day_order Examples.iso_parse Examples.store
              Examples.morning "user_003" Examples.emily
              {| pay_now_items := []; bnpl_items := [Examples.airpods];
                 pay_now_total := 0; bnpl_total := 149.99;
                 monthly_bnpl_payment := 37.5; recommendations := [];
                 summary := ""; warnings := []; projected_balance := 500 |})
    as (finances & events & Hf & He & Hsame).
  - vm_compute. reflexivity.
  - vm_compute. reflexivity.
  - exists events. split; [exact He|]. rewrite Hsame.
    assert (E : finances
                = match calculate_available_funds Examples.iso_parse Examples.store
                          Examples.morning "user_003" 30 with
                  | Ok f => f
                  | Err _ => finances
                  end) by now rewrite Hf.
    rewrite E. vm_compute. reflexivity.
Defined.

(** X14.  The events that pay for the cart (PAYMENT and BNPL_PAYMENT) add
    up to minus the pay-now total of the result, less its deferred total
    when it has deferred items: the four deferred payments are exact
    quarters of the deferred total, without rounding. *)
Theorem calendar_cart_outflow (parse_date : string -> option datetime)
    (users : gmap string User) (now : datetime) (user_id : string)
    (user : User) (optimization : CartOptimization) :
  users !! user_id = Some user ->
  dates_parse parse_date user = true ->
  exists events,
    get_payment_calendar parse_date users now optimization user_id = Ok events
    /\ (sum (map ev_amount (List.filter is_cart_payment events))
        == - (pay_now_total optimization
              + match bnpl_items optimization with
                | [] => 0
                | _ :: _ => bnpl_total optimization
                end))%Q.
Proof.
  intros Hu Hd.
  destruct (calculate_available_funds_known parse_date users now user_id 30 user
              Hu Hd) as (finances & Hf & _).
  exists (sort_by_date (calendar_events now optimization finances)).
  split; [unfold get_payment_calendar; now rewrite Hf|].
  rewrite (sum_Permutation _
             (map ev_amount
                (List.filter is_cart_payment
                   (calendar_events now optimization finances)))).
  - rewrite cart_payments_of_calendar.
    destruct (bnpl_items optimization) as [|i l].
    + rewrite (sum_cons _ []). change (sum []) with 0%Q. lra.
    + cbn [seq map]. rewrite !sum_cons. change (sum []) with 0%Q. field.
  - apply Permutation_map, filter_Permutation_list, sort_by_date_Permutation.
Qed.

Lemma calendar_cart_outflow_witness :
  exists events,
    get_payment_calendar Examples.iso_parse Examples.store Examples.morning
      {| pay_now_items := []; bnpl_items := [Examples.airpods]; pay_now_total := 24.99;
         bnpl_total := 149.99; monthly_bnpl_payment := 37.5; recommendations := [];
         summary := ""; warnings := []; projected_balance := 500 |}
      "user_003" = Ok events
    /\ (sum (map ev_amount (List.filter is_cart_payment events)) == - 174.98)%Q.
Proof.
  destruct (calendar_cart_outflow Examples.iso_parse Examples.store
              Examples.morning "user_003" Examples.emily
              {| pay_now_items := []; bnpl_items := [Examples.airpods];
                 pay_now_total := 24.99; bnpl_total := 149.99;
                 monthly_bnpl_payment := 37.5; recommendations := [];
                 summary := ""; warnings := []; projected_balance := 500 |})
    as (events & He & Hsum).
  - vm_compute. reflexivity.
  - vm_compute. reflexivity.
  - exists events. split; [exact He|]. rewrite Hsum. reflexivity.
Defined.

(** ** More on the installment planner *)




(** X16.  In the plan of four payments the last payment differs from the
    other three by at most 2.5 cents, and for an amount of at least the
    deferral minimum of $35, the only amounts the optimizer finances, all
    four payments are positive. *)
Theorem four_payments_balanced (now : datetime) (amount : Q) :
  let base := round2 (amount / 4) in
  let last := round2 (amount - sum [base; base; base]) in
  plan_payments (calculate_bnpl_plan now amount 4) = [base; base; base; last]
  /\ (- (1 # 40) <= last - base)%Q
  /\ (last - base <= 1 # 40)%Q
  /\ ((BNPL_MIN_AMOUNT <= amount)%Q ->
      Forall (fun p => (0 < p)%Q) (plan_payments (calculate_bnpl_plan now amount 4))).
Proof.
  cbv zeta.
  set (base := round2 (amount / 4)).
  set (last := round2 (amount - sum [base; base; base])).
  assert (E : plan_payments (calculate_bnpl_plan now amount 4)
              = [base; base; base; last]) by reflexivity.
  pose proof (round2_near (amount / 4)) as [B1 B2]. fold base in B1, B2.
  pose proof (round2_near (amount - sum [base; base; base])) as [L1 L2].
  fold last in L1, L2.
  assert (S3 : (sum [base; base; base] == 3 * base)%Q).
  { rewrite !sum_cons. change (sum []) with 0%Q. lra. }
  rewrite S3 in L1, L2.
  assert (Q4 : (amount / 4 == amount * (1 # 4))%Q) by (field; discriminate).
  rewrite Q4 in B1, B2.
  split; [exact E|]. clearbody base last.
  split; [lra|]. split; [lra|].
  intros Hmin. unfold BNPL_MIN_AMOUNT in Hmin. rewrite E.
  repeat constructor; lra.
Qed.

Lemma four_payments_balanced_witness :
  Forall (fun p => (0 < p)%Q)
    (plan_payments (calculate_bnpl_plan Examples.morning 149.99 4)).
Proof.
  apply (four_payments_balanced Examples.morning 149.99).
  vm_compute. discriminate.
Defined.

(** ** The profile store *)

Lemma users_of_dict_set (d : list (string * User)) (k : string) (v : User) :
  users_of (dict_set d k v) = <[k := v]> (users_of d).
Proof.
  unfold users_of. induction d as [|[k' v'] d IH]; cbn [dict_set].
  - reflexivity.
  - destruct (String.eqb k' k) eqn:E.
    + apply String.eqb_eq in E. subst k'. rewrite !list_to_map_cons.
      now rewrite insert_insert_eq.
    + apply String.eqb_neq in E. rewrite !list_to_map_cons, IH.
      now apply insert_insert_ne.
Qed.

Lemma dict_set_keys (d : list (string * User)) (k : string) (v : User) :
  map fst (dict_set d k v)
  = if existsb (String.eqb k) (map fst d) then map fst d
    else (map fst d ++ [k])%list.
Proof.
  induction d as [|[k' v'] d IH]; cbn [dict_set map existsb fst].
  - reflexivity.
  - rewrite (String.eqb_sym k k').
    destruct (String.eqb k' k); cbn [orb map fst]; [reflexivity|].
    rewrite IH. now destruct (existsb (String.eqb k) (map fst d)).
Qed.

Lemma dict_set_NoDup (d : list (string * User)) (k : string) (v : User) :
  NoDup (map fst d) -> NoDup (map fst (dict_set d k v)).
Proof.
  intros H. rewrite dict_set_keys.
  destruct (existsb (String.eqb k) (map fst d)) eqn:E; [exact H|].
  apply NoDup_app. split; [exact H|]. split.
  - intros x Hx Hk. apply list_elem_of_In in Hx. apply list_elem_of_In in Hk.
    destruct Hk as [<-|[]].
    assert (existsb (String.eqb k) (map fst d) = true); [|congruence].
    apply existsb_exists. exists k. split; [exact Hx|apply String.eqb_refl].
  - apply NoDup_singleton.
Qed.

Lemma dict_set_In (d : list (string * User)) (k : string) (v : User)
    (kv : string * User) :
  In kv (dict_set d k v) -> kv = (k, v) \/ In kv d.
Proof.
  induction d as [|[k' v'] d IH]; cbn [dict_set].
  - intros [<-|[]]. now left.
  - destruct (String.eqb k' k) eqn:E.
    + apply String.eqb_eq in E. subst k'.
      intros [<-|H]; [now left|right; now right].
    + intros [<-|H]; [right; now left|].
      destruct (IH H); [now left|right; now right].
Qed.

Lemma dict_set_has (d : list (string * User)) (k : string) (v : User) :
  In k (map fst (dict_set d k v))
  /\ forall x, In x (map fst d) -> In x (map fst (dict_set d k v)).
Proof.
  rewrite dict_set_keys.
  destruct (existsb (String.eqb k) (map fst d)) eqn:E.
  - split; [|auto]. apply existsb_exists in E as (x & Hx & Ex).
    apply String.eqb_eq in Ex. now subst.
  - split; [apply in_or_app; right; now left|].
    intros x Hx. apply in_or_app. now left.
Qed.

(** What [_load_user_db] keeps of the dictionary: the keys are distinct,
    every value is filed under its own id and comes from the file, and
    every id of the file is a key. *)
Lemma load_user_db_invariant (file_users : list User) :
  let d := load_user_db file_users in
  NoDup (map fst d)
  /\ (forall kv, In kv d -> fst kv = u_id (snd kv) /\ In (snd kv) file_users)
  /\ (forall u, In u file_users -> In (u_id u) (map fst d)).
Proof.
  cbv zeta. unfold load_user_db.
  apply (fold_left_invariant
           (fun d user => dict_set d (u_id user) user) file_users
           (fun d pre =>
              NoDup (map fst d)
              /\ (forall kv, In kv d ->
                    fst kv = u_id (snd kv) /\ In (snd kv) file_users)
              /\ (forall u, In u pre -> In (u_id u) (map fst d)))).
  - split; [apply NoDup_nil_2|]. split; intros ? [].
  - intros d pre u Hu (Hnd & Hkv & Hall). split; [|split].
    + now apply dict_set_NoDup.
    + intros kv Hin. apply dict_set_In in Hin as [->|Hin]; auto.
    + intros u' Hu'. apply in_app_or in Hu' as [Hu'|[<-|[]]].
      * apply (proj2 (dict_set_has d (u_id u) u)). now apply Hall.
      * apply (proj1 (dict_set_has d (u_id u) u)).
Qed.

Lemma users_of_lookup (d : list (string * User)) (k : string) (v : User) :
  NoDup (map fst d) -> In (k, v) d -> users_of d !! k = Some v.
Proof.
  unfold users_of. induction d as [|[k' v'] d IH]; intros Hnd Hin; [contradiction|].
  cbn [map fst] in Hnd. apply NoDup_cons in Hnd as [Hk Hnd].
  rewrite list_to_map_cons. destruct Hin as [[= -> ->]|Hin].
  - apply lookup_insert_eq.
  - rewrite lookup_insert_ne; [now apply IH|].
    intros ->. apply Hk. apply list_elem_of_In, in_map_iff. exists (k, v). auto.
Qed.

Lemma load_user_db_fold (file_users : list User) (d : list (string * User)) :
  users_of (fold_left (fun d user => dict_set d (u_id user) user) file_users d)
  = fold_left (fun m user => <[u_id user := user]> m) file_users (users_of d).
Proof.
  revert d. induction file_users as [|u l IH]; intros d; [reflexivity|].
  cbn [fold_left]. now rewrite IH, users_of_dict_set.
Qed.

(** X17.  After [_load_user_db], [get_user] returns for an id the last
    profile of the file that carries it, and [None] when no profile of the
    file does: a later profile with the same id replaces an earlier one. *)
Theorem load_user_db_lookup (file_users : list User) (user_id : string) :
  get_user (users_of (load_user_db file_users)) user_id
  = List.find (fun u => String.eqb (u_id u) user_id) (rev file_users).
Proof.
  unfold get_user, load_user_db. rewrite load_user_db_fold.
  change (users_of []) with (∅ : gmap string User).
  induction file_users as [|u l IH] using rev_ind.
  - reflexivity.
  - rewrite fold_left_app, rev_app_distr. cbn [fold_left rev app List.find].
    destruct (String.eqb (u_id u) user_id) eqn:E.
    + apply String.eqb_eq in E. subst user_id. apply lookup_insert_eq.
    + apply String.eqb_neq in E. now rewrite lookup_insert_ne.
Qed.

(** X18.  [list_users] lists every id of the file once, whatever the
    number of profiles that carry it, and each entry shows the name and the
    balance of the profile that [get_user] returns for its id. *)
Theorem list_users_of_store (file_users : list User) :
  let d := load_user_db file_users in
  List.NoDup (map s_id (list_users d))
  /\ (forall id, In id (map s_id (list_users d))
                 <-> In id (map u_id file_users))
  /\ (forall s, In s (list_users d) ->
        exists user,
          get_user (users_of d) (s_id s) = Some user
          /\ u_id user = s_id s
          /\ s_name s = u_name user
          /\ s_balance s = u_bank_balance user).
Proof.
  cbv zeta.
  destruct (load_user_db_invariant file_users) as (Hnd & Hkv & Hall).
  set (d := load_user_db file_users) in *.
  assert (Hids : map s_id (list_users d) = map fst d).
  { unfold list_users. rewrite map_map. apply map_ext_in.
    intros kv Hin. cbn. symmetry. now apply Hkv. }
  split; [|split].
  - apply NoDup_ListNoDup. now rewrite Hids.
  - intros id. rewrite Hids. split.
    + intros H. apply in_map_iff in H as (kv & <- & Hin).
      destruct (Hkv kv Hin) as [-> Hu]. now apply in_map.
    + intros H. apply in_map_iff in H as (u & <- & Hu). now apply Hall.
  - intros s Hs. unfold list_users in Hs.
    apply in_map_iff in Hs as ([k u] & <- & Hin). cbn.
    destruct (Hkv _ Hin) as [Hk _]. cbn in Hk.
    exists u. repeat split. unfold get_user. apply users_of_lookup; auto.
    now rewrite <- Hk.
Qed.

(** ** What is deferred *)

(** X19.  Every item of the deferred list costs between $35 and $2000,
    has a category that is not essential and is itself eligible, and the
    profile says that the account is eligible. *)
Theorem deferred_items_bounds (parse_date : string -> option datetime)
    (users : gmap string User) (now : datetime) (user_id : string)
    (user : User) (items : list CartItem) :
  users !! user_id = Some user ->
  dates_parse parse_date user = true ->
  exists r,
    optimize_cart parse_date users now user_id items = Ok r
    /\ forall i, In i (bnpl_items r) ->
         (BNPL_MIN_AMOUNT <= price i)%Q
         /\ (price i <= BNPL_MAX_AMOUNT)%Q
         /\ ~ In (category i) ESSENTIAL_CATEGORIES
         /\ bnpl_eligible i = true
         /\ u_bnpl_eligible user = Some true.
Proof.
  intros Hu Hd.
  destruct (optimize_cart_with_snapshot parse_date users now user_id user items Hu Hd)
    as (finances & r & Hf & Hr & _ & He & Ha).
  destruct Ha as (_ & _ & Ebn & _).
  pose proof (final_state_invariant now finances items) as Hinv.
  pose proof (final_state_decided now finances items) as Hdec.
  rewrite List.Forall_forall in Hdec.
  exists r. split; [exact Hr|]. rewrite Ebn, (inv_bnpl _ _ _ Hinv).
  intros i Hi. apply in_map_iff in Hi as (rec & <- & Hrec).
  apply filter_In in Hrec as [Hrec Hs].
  assert (Hb : strategy rec = BNPL).
  { unfold is_bnpl in Hs. now destruct (strategy rec). }
  destruct (Hdec rec Hrec) as [_ [Hiff _]].
  destruct (Hiff Hb) as (Hc & Hel & Hmax & _).
  unfold is_candidate in Hc.
  apply andb_prop in Hc as [Hc1 Hc]. apply andb_prop in Hc as [Hc2 Hc3].
  repeat split; auto.
  - now apply Qgeb_true.
  - intros Hin. apply in_essential_In in Hin. rewrite Hin in Hc1. discriminate.
  - rewrite He in Hel. destruct (u_bnpl_eligible user) as [[|]|]; congruence.
Qed.

Lemma deferred_items_bounds_witness :
  exists r,
    optimize_cart Examples.iso_parse Examples.store Examples.morning "user_003"
      [Examples.diapers; Examples.airpods] = Ok r.
Proof.
  destruct (deferred_items_bounds Examples.iso_parse Examples.store
              Examples.morning "user_003" Examples.emily
              [Examples.diapers; Examples.airpods])
    as (r & Hr & _).
  - vm_compute. reflexivity.
  - vm_compute. reflexivity.
  - exists r. exact Hr.
Defined.

(** ** The callers *)

(** X20.  On the manual-entry path of the application, an item whose name
    the catalogue lookup reports as not eligible is paid now, whatever its
    price and its category: the eligibility of the lookup overrides the
    default of [create_cart_items]. *)
Theorem manual_cart_ineligible_pays_now (parse_date : string -> option datetime)
    (users : gmap string User) (now : datetime) (user_id : string)
    (user : User) (is_bnpl_eligible : string -> bool)
    (manual_cart : list ItemData) :
  users !! user_id = Some user ->
  dates_parse parse_date user = true ->
  exists r,
    optimize_cart parse_date users now user_id
      (manual_cart_items is_bnpl_eligible manual_cart) = Ok r
    /\ List.length (recommendations r) = List.length manual_cart
    /\ forall rec, In rec (recommendations r) ->
         is_bnpl_eligible (name (item rec)) = false -> strategy rec = PAY_NOW.
Proof.
  intros Hu Hd.
  destruct (optimize_cart_known parse_date users now user_id user
              (manual_cart_items is_bnpl_eligible manual_cart) Hu Hd)
    as (finances & r & Hr & _ & _ & Ha & Hinv).
  destruct Ha as (Erec & _).
  exists r. split; [exact Hr|]. rewrite Erec. split.
  - rewrite <- (length_map item), (inv_items _ _ _ Hinv),
      (Permutation_length (classify_items_Permutation _)), length_map.
    unfold manual_cart_items, create_cart_items. now rewrite !length_map.
  - intros rec Hrec Hno.
    apply (inv_not_candidate _ _ _ Hinv); [exact Hrec|].
    assert (Hin : In (item rec) (map item (st_recommendations
                    (final_state now finances
                       (manual_cart_items is_bnpl_eligible manual_cart)))))
      by now apply in_map.
    rewrite (inv_items _ _ _ Hinv) in Hin.
    apply done_from_cart in Hin as (j & Hj & E).
    unfold manual_cart_items in Hj. apply in_map_iff in Hj as (i & <- & _).
    rewrite E in Hno |- *. cbn in Hno.
    unfold is_candidate. cbn [bnpl_eligible mark set_is_essential set_bnpl_eligible].
    rewrite Hno. now rewrite andb_false_r.
Qed.

Lemma manual_cart_ineligible_pays_now_witness :
  exists r,
    optimize_cart Examples.iso_parse Examples.store Examples.morning "user_003"
      (manual_cart_items (fun _ => false)
         [{| d_name := Some "AirPods"; d_price := Some 149.99%Q;
             d_category := Some "Electronics"; d_bnpl_eligible := None |}]) = Ok r
    /\ List.length (recommendations r) = 1%nat.
Proof.
  destruct (manual_cart_ineligible_pays_now Examples.iso_parse Examples.store
              Examples.morning "user_003" Examples.emily (fun _ => false)
              [{| d_name := Some "AirPods"; d_price := Some 149.99%Q;
                  d_category := Some "Electronics"; d_bnpl_eligible := None |}])
    as (r & Hr & Hlen & _).
  - vm_compute. reflexivity.
  - vm_compute. reflexivity.
  - exists r. split; [exact Hr|exact Hlen].
Defined.

(** X21.  [create_cart_items] returns one item per entry, in order, never
    flagged essential.  An entry without category and without eligibility
    gets the category ["General"], which is not essential, and is eligible:
    the classifier makes it a deferral candidate exactly when its price
    (0 when the entry has none) is at least $35. *)
Theorem create_cart_items_defaults (items_data : list ItemData) :
  List.length (create_cart_items items_data) = List.length items_data
  /\ Forall (fun i => is_essential i = false) (create_cart_items items_data)
  /\ ((forall d, In d items_data -> d_category d = None /\ d_bnpl_eligible d = None) ->
      snd (classify_items (create_cart_items items_data))
      = List.filter (fun i => Qgeb (price i) BNPL_MIN_AMOUNT)
          (create_cart_items items_data)
      /\ fst (classify_items (create_cart_items items_data))
         = List.filter (fun i => negb (Qgeb (price i) BNPL_MIN_AMOUNT))
             (create_cart_items items_data)).
Proof.
  split; [unfold create_cart_items; apply length_map|]. split.
  - unfold create_cart_items. apply List.Forall_forall.
    intros i Hi. apply in_map_iff in Hi as (d & <- & _). reflexivity.
  - intros Hall. rewrite classify_items_filter. cbn [fst snd].
    assert (Hmark : map mark (create_cart_items items_data)
                    = create_cart_items items_data).
    { unfold create_cart_items. rewrite map_map. apply map_ext_in.
      intros d Hd. destruct (Hall d Hd) as [Hc _]. unfold mark.
      cbn [category]. now rewrite Hc. }
    rewrite Hmark.
    assert (Hcand : forall i, In i (create_cart_items items_data) ->
                      is_candidate i = Qgeb (price i) BNPL_MIN_AMOUNT).
    { intros i Hi. unfold create_cart_items in Hi.
      apply in_map_iff in Hi as (d & <- & Hd). destruct (Hall d Hd) as [Hc He].
      unfold is_candidate. cbn [category bnpl_eligible price].
      now rewrite Hc, He. }
    split; apply filter_ext_in; intros i Hi; now rewrite (Hcand i Hi).
Qed.

Lemma create_cart_items_defaults_witness :
  snd (classify_items
         (create_cart_items
            [{| d_name := None; d_price := Some 40%Q; d_category := None;
                d_bnpl_eligible := None |}]))
  = List.filter (fun i => Qgeb (price i) BNPL_MIN_AMOUNT)
      (create_cart_items
         [{| d_name := None; d_price := Some 40%Q; d_category := None;
             d_bnpl_eligible := None |}]).
Proof.
  apply (create_cart_items_defaults
           [{| d_name := None; d_price := Some 40%Q; d_category := None;
               d_bnpl_eligible := None |}]).
  intros d [<-|[]]. split; reflexivity.
Defined.

(** X22.  [get_payment_calendar] fails like the snapshot it starts with:
    it raises the user-not-found error, with the id it was given, exactly
    when the id is not in the store, whatever the optimization result. *)
Theorem calendar_unknown_user (parse_date : string -> option datetime)
    (users : gmap string User) (now : datetime) (user_id : string)
    (optimization : CartOptimization) :
  (users !! user_id = None ->
   get_payment_calendar parse_date users now optimization user_id
   = Err (UserNotFound user_id))
  /\ ((exists id,
         get_payment_calendar parse_date users now optimization user_id
         = Err (UserNotFound id))
      -> users !! user_id = None).
Proof.
  split.
  - intros H. unfold get_payment_calendar.
    now rewrite (calculate_available_funds_unknown parse_date users now _ _ H).
  - intros [id H]. destruct (users !! user_id) as [user|] eqn:Hu; [|reflexivity].
    exfalso. unfold get_payment_calendar in H.
    destruct (calculate_available_funds parse_date users now user_id 30)
      as [finances|e] eqn:Hf; cbn [bind] in H; [discriminate|].
    destruct (calculate_available_funds_error parse_date users now _ _ _ _ Hu Hf)
      as [t Ht]. congruence.
Qed.

Lemma calendar_unknown_user_witness :
  get_payment_calendar Examples.iso_parse Examples.store Examples.morning
    {| pay_now_items := []; bnpl_items := []; pay_now_total := 0;
       bnpl_total := 0; monthly_bnpl_payment := 0; recommendations := [];
       summary := ""; warnings := []; projected_balance := 0 |}
    "user_404" = Err (UserNotFound "user_404").
Proof.
  apply (calendar_unknown_user Examples.iso_parse Examples.store Examples.morning
           "user_404").
  vm_compute. reflexivity.
Defined.
